(** * Tenant-scoped data access and lead ingestion of the CRM backend

    A shallow embedding of the access modules ([ContactModel], [LeadModel],
    [TagModel], [UserModel], [TaskModel], [InteractionModel],
    [CompanyModel]) and of the request handlers that drive them
    ([webhookController], [leadsController], [tasksController],
    [interactionsController], [contactsController]), followed by the
    properties of the specification.

    Conventions of the embedding.
    - A table is the list of its rows in storage order; an INSERT appends,
      an UPDATE rewrites rows in place, [LIMIT 1] without ORDER BY returns
      the first row in storage order.
    - [gen_random_uuid()] draws the store's [next_id] counter.
    - [CURRENT_TIMESTAMP] reads the store's [clock].
    - A JavaScript value that is [undefined] or [null] is [None]; both are
      sent to the store as SQL NULL.
    - Query text is kept on one line: the template literals of the source
      differ from it by white space only. *)

From Stdlib Require Import List String Ascii Bool Arith ZArith Lia DecimalString.
Import ListNotations.
Local Open Scope string_scope.

(* ------------------------------------------------------------------ *)
(** ** JavaScript strings and values *)

Module JS.

(** [!!v] for an optional string: absent and empty are falsy. *)
Definition truthy (v : option string) : bool :=
  match v with
  | Some s => negb (s =? "")
  | None => false
  end.

(** [v || null] *)
Definition or_null (v : option string) : option string :=
  if truthy v then v else None.

(** [v || d] *)
Definition or_default (v : option string) (d : string) : string :=
  match v with
  | Some s => if s =? "" then d else s
  | None => d
  end.

(** White space removed by [String.prototype.trim] (ASCII part). *)
Definition is_ws (a : ascii) : bool :=
  let n := nat_of_ascii a in
  (n =? 32)%nat || ((9 <=? n)%nat && (n <=? 13)%nat).

Fixpoint trimStart (s : string) : string :=
  match s with
  | String a s' => if is_ws a then trimStart s' else s
  | EmptyString => EmptyString
  end.

(** Drops trailing white space: a character is kept when it is not white
    space or when something is kept after it. *)
Fixpoint trimEnd (s : string) : string :=
  match s with
  | String a s' =>
      match trimEnd s' with
      | EmptyString => if is_ws a then EmptyString else String a EmptyString
      | rest => String a rest
      end
  | EmptyString => EmptyString
  end.

Definition trim (s : string) : string := trimEnd (trimStart s).

Definition upper_ascii (a : ascii) : ascii :=
  let n := nat_of_ascii a in
  if (97 <=? n)%nat && (n <=? 122)%nat then ascii_of_nat (n - 32) else a.

Definition lower_ascii (a : ascii) : ascii :=
  let n := nat_of_ascii a in
  if (65 <=? n)%nat && (n <=? 90)%nat then ascii_of_nat (n + 32) else a.

Fixpoint map_string (f : ascii -> ascii) (s : string) : string :=
  match s with
  | String a s' => String (f a) (map_string f s')
  | EmptyString => EmptyString
  end.

Definition toUpperCase : string -> string := map_string upper_ascii.
Definition toLowerCase : string -> string := map_string lower_ascii.

Fixpoint filter_string (p : ascii -> bool) (s : string) : string :=
  match s with
  | String a s' => if p a then String a (filter_string p s') else filter_string p s'
  | EmptyString => EmptyString
  end.

Fixpoint forall_string (p : ascii -> bool) (s : string) : bool :=
  match s with
  | String a s' => p a && forall_string p s'
  | EmptyString => true
  end.

(** The class [[a-zA-Z0-9_.]] of the regular expression
    [/[^a-zA-Z0-9_.]/g]. *)
Definition is_sort_char (a : ascii) : bool :=
  let n := nat_of_ascii a in
  ((97 <=? n)%nat && (n <=? 122)%nat)
  || ((65 <=? n)%nat && (n <=? 90)%nat)
  || ((48 <=? n)%nat && (n <=? 57)%nat)
  || (n =? 95)%nat || (n =? 46)%nat.

(** [s.replace(/[^a-zA-Z0-9_.]/g, '')] *)
Definition strip_sort_chars : string -> string := filter_string is_sort_char.

(** Decimal rendering of an index inside a template literal. *)
Definition show_nat (n : nat) : string := NilEmpty.string_of_uint (Nat.to_uint n).

(** [Array.prototype.map] with the index as second argument. *)
Fixpoint mapi_from {A B : Type} (i : nat) (f : A -> nat -> B) (l : list A) : list B :=
  match l with
  | [] => []
  | x :: l' => f x i :: mapi_from (S i) f l'
  end.

Definition mapi {A B : Type} (f : A -> nat -> B) (l : list A) : list B := mapi_from 0 f l.

(** [Array.prototype.join] *)
Definition join (sep : string) (l : list string) : string := String.concat sep l.

End JS.

(* ------------------------------------------------------------------ *)
(** ** Rows of the relational store *)

(** Identifiers and instants are natural numbers. *)
Abbreviation uuid := nat (only parsing).
Abbreviation timestamp := nat (only parsing).

Record Contact := mkContact {
  c_id : uuid;
  c_tenant_id : uuid;
  c_first_name : option string;
  c_last_name : option string;
  c_email : option string;
  c_phone : option string;
  c_dob : option string;
  c_company_id : option uuid;
  c_kf_visitor_id : option string;
  c_source : string;
  c_created_at : timestamp;
  c_updated_at : timestamp
}.

Record Company := mkCompany {
  co_id : uuid;
  co_tenant_id : uuid;
  co_name : string;
  co_website : option string;
  co_phone : option string;
  co_address : option string;
  co_created_at : timestamp;
  co_updated_at : timestamp
}.

Record User := mkUser {
  u_id : uuid;
  u_tenant_id : uuid;
  u_email : string;
  u_name : string;
  u_role : string;
  u_is_active : bool
}.

Record Lead := mkLead {
  l_id : uuid;
  l_tenant_id : uuid;
  l_contact_id : option uuid;
  l_owner_user_id : option uuid;
  l_title : option string;
  l_status : string;
  l_stage : string;
  l_score : Z;
  l_source : string;
  l_exhibition_id : option Z;
  l_join_id : option Z;
  l_utm_source : option string;
  l_utm_medium : option string;
  l_utm_campaign : option string;
  l_notes : option string;
  l_created_at : timestamp;
  l_updated_at : timestamp
}.

Record Tag := mkTag {
  t_id : uuid;
  t_tenant_id : uuid;
  t_name : string
}.

Record Task := mkTask {
  k_id : uuid;
  k_tenant_id : uuid;
  k_lead_id : option uuid;
  k_contact_id : option uuid;
  k_assigned_to : option uuid;
  k_title : string;
  k_due_at : option timestamp;
  k_priority : string;
  k_status : string;
  k_created_at : timestamp
}.

Record Interaction := mkInteraction {
  i_id : uuid;
  i_tenant_id : uuid;
  i_lead_id : option uuid;
  i_contact_id : option uuid;
  i_channel : string;
  i_direction : string;
  i_subject : option string;
  i_occurred_at : timestamp;
  i_created_by : option uuid
}.

(** The [after_data] snapshot written by the webhook:
    [{ source: 'fairex_webhook', exhibition_id, join_id, context }]. *)
Record Snapshot := mkSnapshot {
  snap_source : string;
  snap_exhibition_id : option Z;
  snap_join_id : option Z;
  snap_context_notes : option (option string)
}.

Record ActivityLog := mkActivityLog {
  a_id : uuid;
  a_tenant_id : uuid;
  a_entity : string;
  a_entity_id : uuid;
  a_action : string;
  a_after_data : Snapshot;
  (** [scan_time || new Date()]: the text of the request, or the clock. *)
  a_occurred_at : string + timestamp
}.

Record Store := mkStore {
  tenants : list uuid;
  team_users : list User;
  companies : list Company;
  contacts : list Contact;
  leads : list Lead;
  tags : list Tag;
  lead_tags : list (uuid * uuid);
  tasks : list Task;
  interactions : list Interaction;
  activity_log : list ActivityLog;
  next_id : uuid;
  clock : timestamp
}.

Definition with_contacts (s : Store) (cs : list Contact) : Store :=
  mkStore (tenants s) (team_users s) (companies s) cs (leads s) (tags s)
          (lead_tags s) (tasks s) (interactions s) (activity_log s)
          (next_id s) (clock s).

Definition with_leads (s : Store) (ls : list Lead) : Store :=
  mkStore (tenants s) (team_users s) (companies s) (contacts s) ls (tags s)
          (lead_tags s) (tasks s) (interactions s) (activity_log s)
          (next_id s) (clock s).

Definition with_tags (s : Store) (ts : list Tag) : Store :=
  mkStore (tenants s) (team_users s) (companies s) (contacts s) (leads s) ts
          (lead_tags s) (tasks s) (interactions s) (activity_log s)
          (next_id s) (clock s).

Definition with_lead_tags (s : Store) (lt : list (uuid * uuid)) : Store :=
  mkStore (tenants s) (team_users s) (companies s) (contacts s) (leads s) (tags s)
          lt (tasks s) (interactions s) (activity_log s)
          (next_id s) (clock s).

Definition with_activity_log (s : Store) (al : list ActivityLog) : Store :=
  mkStore (tenants s) (team_users s) (companies s) (contacts s) (leads s) (tags s)
          (lead_tags s) (tasks s) (interactions s) al
          (next_id s) (clock s).

(** One draw of [gen_random_uuid()]. *)
Definition bump_id (s : Store) : Store :=
  mkStore (tenants s) (team_users s) (companies s) (contacts s) (leads s) (tags s)
          (lead_tags s) (tasks s) (interactions s) (activity_log s)
          (S (next_id s)) (clock s).

(** SQL [col = $n]: never true when either side is NULL. *)
Definition sql_eq_str (col param : option string) : bool :=
  match col, param with
  | Some a, Some b => a =? b
  | _, _ => false
  end.

Definition sql_eq_id (col : option uuid) (param : uuid) : bool :=
  match col with
  | Some a => (a =? param)%nat
  | None => false
  end.

(** [COALESCE($n, col)] *)
Definition coalesce {A : Type} (param col : option A) : option A :=
  match param with
  | Some v => Some v
  | None => col
  end.

(** A destructuring default: taken only when the key is absent. *)
Definition dflt {A : Type} (v : option A) (d : A) : A :=
  match v with
  | Some x => x
  | None => d
  end.

(** A key that is set on an object. *)
Definition present {A : Type} (v : option A) : bool :=
  match v with
  | Some _ => true
  | None => false
  end.

(** The result of a call that may throw. *)
Inductive outcome (A : Type) : Type :=
| Returned (a : A)
| Thrown (msg : string).
Arguments Returned {A} a.
Arguments Thrown {A} msg.

(* ------------------------------------------------------------------ *)
(** ** Statement parameters and the grammar of a SET list *)

(** A parameter value handed to the driver. *)
Inductive value :=
| VNull
| VStr (s : string)
| VNum (z : Z)
| VId (u : uuid).

(** A field bag whose keys are column names; [Object.keys] and
    [Object.values] follow insertion order. *)
Definition Bag := list (string * value).

Module Sql.

(** Splits at every occurrence of the character [c]. *)
Fixpoint split_char (c : ascii) (s : string) : list string :=
  match s with
  | EmptyString => [EmptyString]
  | String a s' =>
      match split_char c s' with
      | h :: t => if Ascii.eqb a c then EmptyString :: h :: t else String a h :: t
      | [] => [EmptyString]
      end
  end.

Definition is_digit (a : ascii) : bool :=
  let n := nat_of_ascii a in (48 <=? n)%nat && (n <=? 57)%nat.

Definition is_ident_char (a : ascii) : bool :=
  JS.is_sort_char a && negb (Ascii.eqb a ".").

Fixpoint parse_digits (acc : nat) (s : string) : option nat :=
  match s with
  | EmptyString => Some acc
  | String a s' =>
      if is_digit a then parse_digits (10 * acc + (nat_of_ascii a - 48)) s' else None
  end.

(** The right-hand side of an assignment of a SET list. *)
Inductive rhs :=
| Param (n : nat)
| CurrentTimestamp.

Definition parse_rhs (s : string) : option rhs :=
  if s =? "CURRENT_TIMESTAMP" then Some CurrentTimestamp
  else match s with
       | String "$" (String d ds) => option_map Param (parse_digits 0 (String d ds))
       | _ => None
       end.

(** [column = expression]; a missing column name is a syntax error. *)
Definition parse_assignment (item : string) : option (string * rhs) :=
  match split_char "=" item with
  | [l; r] =>
      let col := JS.trim l in
      if negb (col =? "") && JS.forall_string is_ident_char col
      then option_map (pair col) (parse_rhs (JS.trim r))
      else None
  | _ => None
  end.

Fixpoint parse_all (items : list string) : option (list (string * rhs)) :=
  match items with
  | [] => Some []
  | i :: rest =>
      match parse_assignment i, parse_all rest with
      | Some a, Some l => Some (a :: l)
      | _, _ => None
      end
  end.

(** The comma-separated SET list of an UPDATE statement. *)
Definition parse_set_list (text : string) : option (list (string * rhs)) :=
  parse_all (split_char "," text).

(** The text between [UPDATE leads SET ] and the first [ WHERE ]. *)
Definition set_list_of (query : string) : option string :=
  let head := "UPDATE leads SET " in
  if String.prefix head query then
    match String.index 0 " WHERE " query with
    | Some n => Some (String.substring (String.length head) (n - String.length head) query)
    | None => None
    end
  else None.

End Sql.

(** Assignment of one column of [leads]; [None] is a store error (no such
    column, or a value the column cannot hold). *)
Definition set_lead_col (col : string) (v : value) (now : timestamp) (l : Lead) : option Lead :=
  let opt_str := match v with VStr s => Some (Some s) | VNull => Some None | _ => None end in
  let req_str := match v with VStr s => Some s | _ => None end in
  let opt_num := match v with VNum z => Some (Some z) | VNull => Some None | _ => None end in
  let opt_id := match v with VId u => Some (Some u) | VNull => Some None | _ => None end in
  let upd (f : Lead -> Lead) := Some (f l) in
  let k {A : Type} (o : option A) (f : A -> Lead) : option Lead := option_map f o in
  if col =? "contact_id" then
    k opt_id (fun x => mkLead (l_id l) (l_tenant_id l) x (l_owner_user_id l) (l_title l)
       (l_status l) (l_stage l) (l_score l) (l_source l) (l_exhibition_id l) (l_join_id l)
       (l_utm_source l) (l_utm_medium l) (l_utm_campaign l) (l_notes l)
       (l_created_at l) (l_updated_at l))
  else if col =? "owner_user_id" then
    k opt_id (fun x => mkLead (l_id l) (l_tenant_id l) (l_contact_id l) x (l_title l)
       (l_status l) (l_stage l) (l_score l) (l_source l) (l_exhibition_id l) (l_join_id l)
       (l_utm_source l) (l_utm_medium l) (l_utm_campaign l) (l_notes l)
       (l_created_at l) (l_updated_at l))
  else if col =? "title" then
    k opt_str (fun x => mkLead (l_id l) (l_tenant_id l) (l_contact_id l) (l_owner_user_id l) x
       (l_status l) (l_stage l) (l_score l) (l_source l) (l_exhibition_id l) (l_join_id l)
       (l_utm_source l) (l_utm_medium l) (l_utm_campaign l) (l_notes l)
       (l_created_at l) (l_updated_at l))
  else if col =? "status" then
    k req_str (fun x => mkLead (l_id l) (l_tenant_id l) (l_contact_id l) (l_owner_user_id l)
       (l_title l) x (l_stage l) (l_score l) (l_source l) (l_exhibition_id l) (l_join_id l)
       (l_utm_source l) (l_utm_medium l) (l_utm_campaign l) (l_notes l)
       (l_created_at l) (l_updated_at l))
  else if col =? "stage" then
    k req_str (fun x => mkLead (l_id l) (l_tenant_id l) (l_contact_id l) (l_owner_user_id l)
       (l_title l) (l_status l) x (l_score l) (l_source l) (l_exhibition_id l) (l_join_id l)
       (l_utm_source l) (l_utm_medium l) (l_utm_campaign l) (l_notes l)
       (l_created_at l) (l_updated_at l))
  else if col =? "score" then
    k (match v with VNum z => Some z | _ => None end)
      (fun x => mkLead (l_id l) (l_tenant_id l) (l_contact_id l) (l_owner_user_id l)
       (l_title l) (l_status l) (l_stage l) x (l_source l) (l_exhibition_id l) (l_join_id l)
       (l_utm_source l) (l_utm_medium l) (l_utm_campaign l) (l_notes l)
       (l_created_at l) (l_updated_at l))
  else if col =? "source" then
    k req_str (fun x => mkLead (l_id l) (l_tenant_id l) (l_contact_id l) (l_owner_user_id l)
       (l_title l) (l_status l) (l_stage l) (l_score l) x (l_exhibition_id l) (l_join_id l)
       (l_utm_source l) (l_utm_medium l) (l_utm_campaign l) (l_notes l)
       (l_created_at l) (l_updated_at l))
  else if col =? "exhibition_id" then
    k opt_num (fun x => mkLead (l_id l) (l_tenant_id l) (l_contact_id l) (l_owner_user_id l)
       (l_title l) (l_status l) (l_stage l) (l_score l) (l_source l) x (l_join_id l)
       (l_utm_source l) (l_utm_medium l) (l_utm_campaign l) (l_notes l)
       (l_created_at l) (l_updated_at l))
  else if col =? "join_id" then
    k opt_num (fun x => mkLead (l_id l) (l_tenant_id l) (l_contact_id l) (l_owner_user_id l)
       (l_title l) (l_status l) (l_stage l) (l_score l) (l_source l) (l_exhibition_id l) x
       (l_utm_source l) (l_utm_medium l) (l_utm_campaign l) (l_notes l)
       (l_created_at l) (l_updated_at l))
  else if col =? "utm_source" then
    k opt_str (fun x => mkLead (l_id l) (l_tenant_id l) (l_contact_id l) (l_owner_user_id l)
       (l_title l) (l_status l) (l_stage l) (l_score l) (l_source l) (l_exhibition_id l)
       (l_join_id l) x (l_utm_medium l) (l_utm_campaign l) (l_notes l)
       (l_created_at l) (l_updated_at l))
  else if col =? "utm_medium" then
    k opt_str (fun x => mkLead (l_id l) (l_tenant_id l) (l_contact_id l) (l_owner_user_id l)
       (l_title l) (l_status l) (l_stage l) (l_score l) (l_source l) (l_exhibition_id l)
       (l_join_id l) (l_utm_source l) x (l_utm_campaign l) (l_notes l)
       (l_created_at l) (l_updated_at l))
  else if col =? "utm_campaign" then
    k opt_str (fun x => mkLead (l_id l) (l_tenant_id l) (l_contact_id l) (l_owner_user_id l)
       (l_title l) (l_status l) (l_stage l) (l_score l) (l_source l) (l_exhibition_id l)
       (l_join_id l) (l_utm_source l) (l_utm_medium l) x (l_notes l)
       (l_created_at l) (l_updated_at l))
  else if col =? "notes" then
    k opt_str (fun x => mkLead (l_id l) (l_tenant_id l) (l_contact_id l) (l_owner_user_id l)
       (l_title l) (l_status l) (l_stage l) (l_score l) (l_source l) (l_exhibition_id l)
       (l_join_id l) (l_utm_source l) (l_utm_medium l) (l_utm_campaign l) x
       (l_created_at l) (l_updated_at l))
  else if col =? "tenant_id" then
    k (match v with VId u => Some u | _ => None end)
      (fun x => mkLead (l_id l) x (l_contact_id l) (l_owner_user_id l)
       (l_title l) (l_status l) (l_stage l) (l_score l) (l_source l) (l_exhibition_id l)
       (l_join_id l) (l_utm_source l) (l_utm_medium l) (l_utm_campaign l) (l_notes l)
       (l_created_at l) (l_updated_at l))
  else if col =? "updated_at" then
    upd (fun l => mkLead (l_id l) (l_tenant_id l) (l_contact_id l) (l_owner_user_id l)
       (l_title l) (l_status l) (l_stage l) (l_score l) (l_source l) (l_exhibition_id l)
       (l_join_id l) (l_utm_source l) (l_utm_medium l) (l_utm_campaign l) (l_notes l)
       (l_created_at l) now)
  else None.

(* ------------------------------------------------------------------ *)
(** ** Patterns, ordering and windows of the store *)

Module Pg.

(** [s LIKE p]: [%] matches any run of characters and [_] any one
    character. *)
Fixpoint like (p s : string) : bool :=
  match p with
  | EmptyString => match s with EmptyString => true | _ => false end
  | String a p' =>
      if Ascii.eqb a "%" then
        (fix try (t : string) : bool :=
           like p' t || match t with
                        | EmptyString => false
                        | String _ t' => try t'
                        end) s
      else
        match s with
        | EmptyString => false
        | String b s' => (Ascii.eqb a "_" || Ascii.eqb a b) && like p' s'
        end
  end.

(** [col ILIKE $n]: NULL never matches. *)
Definition ilike (col : option string) (pattern : string) : bool :=
  match col with
  | Some c => like (JS.toLowerCase pattern) (JS.toLowerCase c)
  | None => false
  end.

(** A value of a column that rows are ordered by. *)
Inductive key :=
| KNull
| KNum (z : Z)
| KStr (s : string).

(** Ascending order, NULLs last. *)
Definition key_leb (a b : key) : bool :=
  match a, b with
  | _, KNull => true
  | KNull, _ => false
  | KNum x, KNum y => (x <=? y)%Z
  | KStr x, KStr y => String.leb x y
  | KNum _, KStr _ => true
  | KStr _, KNum _ => false
  end.

Inductive direction := ASC | DESC.

(** The text after the sort expression: nothing, [ASC] or [DESC]. *)
Definition direction_of (s : string) : option direction :=
  if s =? "" then Some ASC
  else if s =? "ASC" then Some ASC
  else if s =? "DESC" then Some DESC
  else None.

Definition by_key {R : Type} (d : direction) (k : R -> key) (x y : R) : bool :=
  match d with
  | ASC => key_leb (k x) (k y)
  | DESC => key_leb (k y) (k x)
  end.

Fixpoint insert_by {R : Type} (leb : R -> R -> bool) (x : R) (l : list R) : list R :=
  match l with
  | [] => [x]
  | y :: l' => if leb x y then x :: l else y :: insert_by leb x l'
  end.

(** [ORDER BY]: a stable insertion sort. *)
Definition sort_by {R : Type} (leb : R -> R -> bool) (l : list R) : list R :=
  fold_right (insert_by leb) [] l.

(** [LIMIT $a OFFSET $b]: negative values are rejected. *)
Definition limit_offset (limit offset : Z) : option (nat * nat) :=
  if (limit <? 0)%Z || (offset <? 0)%Z then None
  else Some (Z.to_nat limit, Z.to_nat offset).

(** [SELECT ..., COUNT( * ) OVER() as total_count ... LIMIT l OFFSET o]:
    the window count is taken over all rows that passed WHERE and rides
    on each row of the page. *)
Definition window_page {R : Type} (sorted : list R) (limit offset : nat) : list (R * nat) :=
  map (fun r => (r, List.length sorted)) (firstn limit (skipn offset sorted)).

(** [rows.length > 0 ? parseInt(rows[0].total_count) : 0] *)
Definition totalCount {R : Type} (rows : list (R * nat)) : Z :=
  match rows with
  | (_, n) :: _ => Z.of_nat n
  | [] => 0%Z
  end.

(** [rows.map(row => { const { total_count, ...x } = row; return x })] *)
Definition strip_count {R : Type} (rows : list (R * nat)) : list R := map fst rows.

End Pg.

(** A statement handed to [db.query]: its text, cut around the ORDER BY
    clause, and its parameters. *)
Record Query := mkQuery {
  q_head : string;
  q_order_by : string;
  q_tail : string;
  q_params : list value
}.

Definition query_text (q : Query) : string := q_head q ++ q_order_by q ++ q_tail q.

(** The state of a builder: the conditions, the parameters and
    [paramIndex]. *)
Record Builder := mkBuilder {
  b_conditions : list string;
  b_params : list value;
  b_paramIndex : nat
}.

(** [if (v) { conditions.push(`<col> <op> $${paramIndex++}`);
    params.push(v) }] *)
Definition push_cond (lhs : string) (v : option value) (b : Builder) : Builder :=
  match v with
  | Some x =>
      mkBuilder (b_conditions b ++ [lhs ++ " $" ++ JS.show_nat (b_paramIndex b)])
                (b_params b ++ [x])
                (S (b_paramIndex b))
  | None => b
  end.

(** A string option of the bag that is used only when truthy. *)
Definition str_param (v : option string) : option value :=
  if JS.truthy v then option_map VStr v else None.

(* ------------------------------------------------------------------ *)
(** ** ContactModel *)

(** The field bag accepted by [ContactModel.create] and
    [ContactModel.update]; an absent key is [None]. *)
Record ContactData := mkContactData {
  cd_first_name : option string;
  cd_last_name : option string;
  cd_email : option string;
  cd_phone : option string;
  cd_dob : option string;
  cd_company_id : option uuid;
  cd_kf_visitor_id : option string;
  cd_source : option string
}.

Definition emptyContactData : ContactData :=
  mkContactData None None None None None None None None.

(** The option bag of [GET /contacts]. *)
Record ContactFilters := mkContactFilters {
  cf_source : option string;
  cf_company_id : option uuid;
  cf_search : option string;
  cf_sort_by : option string;
  cf_sort_order : option string
}.

Module ContactModel.

(** [WHERE c.tenant_id = $1 AND (c.email = $2 OR c.phone = $3)] with the
    parameters [[tenantId, email || null, phone || null]]. *)
Definition matches (tenantId : uuid) (email phone : option string) (c : Contact) : bool :=
  (c_tenant_id c =? tenantId)%nat
  && (sql_eq_str (c_email c) (JS.or_null email)
      || sql_eq_str (c_phone c) (JS.or_null phone)).

(** [LIMIT 1; rows[0] || null].  The joined [company_name] display
    column is not carried: no caller modelled here reads it. *)
Definition findByEmailOrPhone (tenantId : uuid) (email phone : option string)
           (s : Store) : option Contact :=
  find (matches tenantId email phone) (contacts s).

(** [INSERT INTO contacts (id, tenant_id, first_name, ..., source) VALUES
    (gen_random_uuid(), $1, ...) RETURNING *; rows[0]]; [created_at] and
    [updated_at] take the column defaults. *)
Definition create (tenantId : uuid) (contactData : ContactData) (s : Store)
  : Store * Contact :=
  let row :=
    mkContact (next_id s) tenantId
              (JS.or_null (cd_first_name contactData))
              (JS.or_null (cd_last_name contactData))
              (JS.or_null (cd_email contactData))
              (JS.or_null (cd_phone contactData))
              (JS.or_null (cd_dob contactData))
              (cd_company_id contactData)
              (JS.or_null (cd_kf_visitor_id contactData))
              (JS.or_default (cd_source contactData) "manual")
              (clock s) (clock s) in
  (bump_id (with_contacts s (contacts s ++ [row])), row).

(** [WHERE c.id = $1 AND c.tenant_id = $2] *)
Definition findById (contactId tenantId : uuid) (s : Store) : option Contact :=
  find (fun c => (c_id c =? contactId)%nat && (c_tenant_id c =? tenantId)%nat)
       (contacts s).

(** The SET list of [update]: six COALESCE assignments and the
    timestamp.  [kf_visitor_id] and [source] are not destructured from
    the bag, so they are never assigned. *)
Definition apply_update (contactData : ContactData) (now : timestamp) (c : Contact)
  : Contact :=
  mkContact (c_id c) (c_tenant_id c)
            (coalesce (cd_first_name contactData) (c_first_name c))
            (coalesce (cd_last_name contactData) (c_last_name c))
            (coalesce (cd_email contactData) (c_email c))
            (coalesce (cd_phone contactData) (c_phone c))
            (coalesce (cd_dob contactData) (c_dob c))
            (coalesce (cd_company_id contactData) (c_company_id c))
            (c_kf_visitor_id c) (c_source c) (c_created_at c) now.

Definition targets (contactId tenantId : uuid) (c : Contact) : bool :=
  (c_id c =? contactId)%nat && (c_tenant_id c =? tenantId)%nat.

(** [UPDATE contacts SET ... WHERE id = $7 AND tenant_id = $8 RETURNING *;
    rows[0]] *)
Definition update (contactId tenantId : uuid) (contactData : ContactData) (s : Store)
  : Store * option Contact :=
  let rewrite c :=
    if targets contactId tenantId c then apply_update contactData (clock s) c else c in
  let s' := with_contacts s (map rewrite (contacts s)) in
  (s', find (targets contactId tenantId) (contacts s')).

(** [DELETE FROM contacts WHERE id = $1 AND tenant_id = $2; rowCount > 0] *)
Definition delete (contactId tenantId : uuid) (s : Store) : Store * bool :=
  (with_contacts s (filter (fun c => negb (targets contactId tenantId c)) (contacts s)),
   existsb (targets contactId tenantId) (contacts s)).

(** The text appended under "Add sorting". *)
Definition findAll_order_by (filters : ContactFilters) : string :=
  if JS.truthy (cf_sort_by filters) then
    let sortField := JS.strip_sort_chars (dflt (cf_sort_by filters) "") in
    let sortOrder :=
      match option_map JS.toUpperCase (cf_sort_order filters) with
      | Some o => if o =? "DESC" then "DESC" else "ASC"
      | None => "ASC"
      end in
    " ORDER BY " ++ sortField ++ " " ++ sortOrder
  else " ORDER BY c.created_at DESC".

(** The statement and parameters that [findAll] hands to [db.query]. *)
Definition findAll_query (tenantId : uuid) (limit offset : Z) (filters : ContactFilters)
  : Query :=
  let b0 := mkBuilder [] [VId tenantId] 2 in
  let b1 := push_cond " AND c.source =" (str_param (cf_source filters)) b0 in
  let b2 := push_cond " AND c.company_id =" (option_map VId (cf_company_id filters)) b1 in
  let b3 :=
    if JS.truthy (cf_search filters) then
      let n := "$" ++ JS.show_nat (b_paramIndex b2) in
      mkBuilder (b_conditions b2
                   ++ [" AND (c.first_name ILIKE " ++ n ++ " OR c.last_name ILIKE " ++ n
                         ++ " OR c.email ILIKE " ++ n ++ " OR c.phone ILIKE " ++ n
                         ++ " OR comp.name ILIKE " ++ n ++ ")"])
                (b_params b2 ++ [VStr ("%" ++ dflt (cf_search filters) "" ++ "%")])
                (S (b_paramIndex b2))
    else b2 in
  mkQuery
    ("SELECT c.*, comp.name as company_name, comp.website as company_website, "
       ++ "COUNT(l.id) as lead_count FROM contacts c "
       ++ "LEFT JOIN companies comp ON c.company_id = comp.id "
       ++ "LEFT JOIN leads l ON c.id = l.contact_id WHERE c.tenant_id = $1"
       ++ JS.join "" (b_conditions b3) ++ " GROUP BY c.id, comp.id")
    (findAll_order_by filters)
    (" LIMIT $" ++ JS.show_nat (b_paramIndex b3)
       ++ " OFFSET $" ++ JS.show_nat (b_paramIndex b3 + 1))
    (b_params b3 ++ [VNum limit; VNum offset]).

End ContactModel.

(* ------------------------------------------------------------------ *)
(** ** LeadModel *)

Record LeadData := mkLeadData {
  ld_contact_id : option uuid;
  ld_owner_user_id : option uuid;
  ld_title : option string;
  ld_status : option string;
  ld_stage : option string;
  ld_score : option Z;
  ld_source : option string;
  ld_exhibition_id : option Z;
  ld_join_id : option Z;
  ld_utm_source : option string;
  ld_utm_medium : option string;
  ld_utm_campaign : option string;
  ld_notes : option string
}.

(** [l.*] with the display columns joined by [getCompleteLeadData]. *)
Record CompleteLead := mkCompleteLead {
  cl_lead : Lead;
  cl_first_name : option string;
  cl_last_name : option string;
  cl_email : option string;
  cl_phone : option string;
  cl_company_name : option string
}.

(** [LEFT JOIN contacts c ON l.contact_id = c.id] *)
Definition join_contact (s : Store) (l : Lead) : option Contact :=
  match l_contact_id l with
  | Some cid => find (fun c => (c_id c =? cid)%nat) (contacts s)
  | None => None
  end.

(** [LEFT JOIN companies comp ON c.company_id = comp.id] *)
Definition join_company (s : Store) (c : option Contact) : option Company :=
  match c with
  | Some c' =>
      match c_company_id c' with
      | Some coid => find (fun co => (co_id co =? coid)%nat) (companies s)
      | None => None
      end
  | None => None
  end.

(** [LEFT JOIN team_users tu ON l.owner_user_id = tu.id] *)
Definition join_owner (s : Store) (l : Lead) : option User :=
  match l_owner_user_id l with
  | Some uid => find (fun u => (u_id u =? uid)%nat) (team_users s)
  | None => None
  end.

Definition complete_row (s : Store) (l : Lead) : CompleteLead :=
  let c := join_contact s l in
  mkCompleteLead l
                 (match c with Some c' => c_first_name c' | None => None end)
                 (match c with Some c' => c_last_name c' | None => None end)
                 (match c with Some c' => c_email c' | None => None end)
                 (match c with Some c' => c_phone c' | None => None end)
                 (option_map co_name (join_company s c)).

(** The option bag of [GET /leads]; an absent key is [None]. *)
Record LeadFilters := mkLeadFilters {
  f_status : option string;
  f_stage : option string;
  f_owner : option uuid;
  f_exhibition_id : option Z;
  f_q : option string;
  f_page : option Z;
  f_limit : option Z;
  f_sort : option string;
  f_order : option string
}.

(** A row of the lead list: [l.*], the contact and company display
    columns, and [tu.name as owner_name]. *)
Record LeadRow := mkLeadRow {
  lr_row : CompleteLead;
  lr_owner_name : option string
}.

Definition lead_row (s : Store) (l : Lead) : LeadRow :=
  mkLeadRow (complete_row s l) (option_map u_name (join_owner s l)).

Definition opt_key {A : Type} (f : A -> Pg.key) (v : option A) : Pg.key :=
  match v with
  | Some x => f x
  | None => Pg.KNull
  end.

Definition nat_key (n : nat) : Pg.key := Pg.KNum (Z.of_nat n).

(** The column [l.<name>] of an ORDER BY clause; [None] when [leads] has
    no such column. *)
Definition lead_key (name : string) : option (Lead -> Pg.key) :=
  if name =? "id" then Some (fun l => nat_key (l_id l))
  else if name =? "tenant_id" then Some (fun l => nat_key (l_tenant_id l))
  else if name =? "contact_id" then Some (fun l => opt_key nat_key (l_contact_id l))
  else if name =? "owner_user_id" then Some (fun l => opt_key nat_key (l_owner_user_id l))
  else if name =? "title" then Some (fun l => opt_key Pg.KStr (l_title l))
  else if name =? "status" then Some (fun l => Pg.KStr (l_status l))
  else if name =? "stage" then Some (fun l => Pg.KStr (l_stage l))
  else if name =? "score" then Some (fun l => Pg.KNum (l_score l))
  else if name =? "source" then Some (fun l => Pg.KStr (l_source l))
  else if name =? "exhibition_id" then Some (fun l => opt_key Pg.KNum (l_exhibition_id l))
  else if name =? "join_id" then Some (fun l => opt_key Pg.KNum (l_join_id l))
  else if name =? "utm_source" then Some (fun l => opt_key Pg.KStr (l_utm_source l))
  else if name =? "utm_medium" then Some (fun l => opt_key Pg.KStr (l_utm_medium l))
  else if name =? "utm_campaign" then Some (fun l => opt_key Pg.KStr (l_utm_campaign l))
  else if name =? "notes" then Some (fun l => opt_key Pg.KStr (l_notes l))
  else if name =? "created_at" then Some (fun l => nat_key (l_created_at l))
  else if name =? "updated_at" then Some (fun l => nat_key (l_updated_at l))
  else None.

(** The value an assignment of a SET list evaluates to. *)
Definition rhs_value (params : list value) (r : Sql.rhs) : option value :=
  match r with
  | Sql.Param n => nth_error params (n - 1)
  | Sql.CurrentTimestamp => Some VNull
  end.

Fixpoint apply_assignments (assigns : list (string * Sql.rhs)) (params : list value)
         (now : timestamp) (l : Lead) : option Lead :=
  match assigns with
  | [] => Some l
  | (col, r) :: rest =>
      match rhs_value params r with
      | Some v =>
          match set_lead_col col v now l with
          | Some l' => apply_assignments rest params now l'
          | None => None
          end
      | None => None
      end
  end.

(** Rewrites the rows that satisfy [hit]; yields the new table and the
    rewritten rows (RETURNING), or nothing when an assignment fails. *)
Fixpoint update_rows (hit : Lead -> bool) (f : Lead -> option Lead) (ls : list Lead)
  : option (list Lead * list Lead) :=
  match ls with
  | [] => Some ([], [])
  | l :: rest =>
      match update_rows hit f rest with
      | Some (tbl, returned) =>
          if hit l then
            match f l with
            | Some l' => Some (l' :: tbl, l' :: returned)
            | None => None
            end
          else Some (l :: tbl, returned)
      | None => None
      end
  end.

Fixpoint distinct (l : list string) : bool :=
  match l with
  | [] => true
  | x :: l' => negb (existsb (String.eqb x) l') && distinct l'
  end.

(** [UPDATE leads SET <list> WHERE id = $1 AND tenant_id = $2 RETURNING *]
    as the store runs it: the SET list is parsed first, and a list with an
    empty item is a syntax error. *)
Definition exec_update_leads (query : string) (params : list value) (s : Store)
  : outcome (Store * list Lead) :=
  match Sql.set_list_of query with
  | None => Thrown "syntax error"
  | Some text =>
      match Sql.parse_set_list text with
      | None => Thrown "syntax error in SET list"
      | Some assigns =>
          if negb (distinct (map fst assigns)) then
            Thrown "multiple assignments to same column"
          else
            match nth_error params 0, nth_error params 1 with
            | Some (VId id), Some (VId tenant) =>
                let hit l := (l_id l =? id)%nat && (l_tenant_id l =? tenant)%nat in
                match update_rows hit (apply_assignments assigns params (clock s)) (leads s) with
                | Some (tbl, returned) => Returned (with_leads s tbl, returned)
                | None => Thrown "column error"
                end
            | _, _ => Thrown "bind error"
            end
      end
  end.

Module LeadModel.

(** [INSERT INTO leads (...) VALUES (gen_random_uuid(), $1, ..., $14)
    RETURNING *; rows[0]], with the destructuring defaults of the bag;
    [created_at] and [updated_at] take the column defaults. *)
Definition create (tenantId : uuid) (leadData : LeadData) (s : Store) : Store * Lead :=
  let row :=
    mkLead (next_id s) tenantId
           (ld_contact_id leadData)
           (ld_owner_user_id leadData)
           (ld_title leadData)
           (dflt (ld_status leadData) "new")
           (dflt (ld_stage leadData) "lead")
           (dflt (ld_score leadData) 0%Z)
           (dflt (ld_source leadData) "manual")
           (ld_exhibition_id leadData)
           (ld_join_id leadData)
           (ld_utm_source leadData)
           (ld_utm_medium leadData)
           (ld_utm_campaign leadData)
           (ld_notes leadData)
           (clock s) (clock s) in
  (bump_id (with_leads s (leads s ++ [row])), row).

(** [SELECT id FROM leads WHERE id = $1 AND tenant_id = $2; rows.length > 0] *)
Definition exists_ (leadId tenantId : uuid) (s : Store) : bool :=
  existsb (fun l => (l_id l =? leadId)%nat && (l_tenant_id l =? tenantId)%nat) (leads s).

(** [... WHERE l.id = $1 AND l.tenant_id = $2; rows[0] || null], with the
    columns it shares with [getCompleteLeadData]. *)
Definition findByIdWithDetails (leadId tenantId : uuid) (s : Store) : option CompleteLead :=
  option_map (complete_row s)
             (find (fun l => (l_id l =? leadId)%nat && (l_tenant_id l =? tenantId)%nat)
                   (leads s)).

(** [... WHERE l.id = $1; rows[0] || null]: the only parameter is the
    lead id. *)
Definition getCompleteLeadData (leadId : uuid) (s : Store) : option CompleteLead :=
  option_map (complete_row s)
             (find (fun l => (l_id l =? leadId)%nat) (leads s)).

(** [DELETE FROM leads WHERE id = $1 AND tenant_id = $2; rowCount > 0] *)
Definition delete (leadId tenantId : uuid) (s : Store) : Store * bool :=
  let hit l := (l_id l =? leadId)%nat && (l_tenant_id l =? tenantId)%nat in
  (with_leads s (filter (fun l => negb (hit l)) (leads s)), existsb hit (leads s)).

(** The statement text of [update]. *)
Definition update_query (updates : Bag) : string :=
  let fields := map fst updates in
  let setClause :=
    JS.join ", " (JS.mapi (fun field index => field ++ " = $" ++ JS.show_nat (index + 3))
                          fields) in
  "UPDATE leads SET " ++ setClause
    ++ ", updated_at = CURRENT_TIMESTAMP WHERE id = $1 AND tenant_id = $2 RETURNING *".

(** [db.query(query, [leadId, tenantId, ...values]); rows[0] || null] *)
Definition update (leadId tenantId : uuid) (updates : Bag) (s : Store)
  : outcome (Store * option Lead) :=
  let values := map snd updates in
  match exec_update_leads (update_query updates) ([VId leadId; VId tenantId] ++ values) s with
  | Returned (s', rows) => Returned (s', hd_error rows)
  | Thrown e => Thrown e
  end.

(** The builder after the "Build dynamic WHERE clause" block. *)
Definition whereBuilder (tenantId : uuid) (filters : LeadFilters) : Builder :=
  let b0 := mkBuilder ["l.tenant_id = $1"] [VId tenantId] 2 in
  let b1 := push_cond "l.status =" (str_param (f_status filters)) b0 in
  let b2 := push_cond "l.stage =" (str_param (f_stage filters)) b1 in
  let b3 := push_cond "l.owner_user_id =" (option_map VId (f_owner filters)) b2 in
  let b4 := push_cond "l.exhibition_id =" (option_map VNum (f_exhibition_id filters)) b3 in
  if JS.truthy (f_q filters) then
    let n := "$" ++ JS.show_nat (b_paramIndex b4) in
    mkBuilder (b_conditions b4
                 ++ ["(l.title ILIKE " ++ n ++ " OR c.first_name ILIKE " ++ n
                       ++ " OR c.last_name ILIKE " ++ n ++ " OR c.email ILIKE " ++ n ++ ")"])
              (b_params b4 ++ [VStr ("%" ++ dflt (f_q filters) "" ++ "%")])
              (S (b_paramIndex b4))
  else b4.

(** The statement and parameters that [getLeadsWithFilters] hands to
    [db.query]. *)
Definition getLeadsWithFilters_query (tenantId : uuid) (filters : LeadFilters) : Query :=
  let page := dflt (f_page filters) 1%Z in
  let limit := dflt (f_limit filters) 20%Z in
  let sort := dflt (f_sort filters) "created_at" in
  let order := dflt (f_order filters) "desc" in
  let offset := ((page - 1) * limit)%Z in
  let b := whereBuilder tenantId filters in
  let whereClause := JS.join " AND " (b_conditions b) in
  let sortOrder := JS.toUpperCase order in
  mkQuery
    ("SELECT l.*, c.first_name, c.last_name, c.email, c.phone, comp.name as company_name, "
       ++ "tu.name as owner_name, COUNT(*) OVER() as total_count FROM leads l "
       ++ "LEFT JOIN contacts c ON l.contact_id = c.id "
       ++ "LEFT JOIN companies comp ON c.company_id = comp.id "
       ++ "LEFT JOIN team_users tu ON l.owner_user_id = tu.id "
       ++ "WHERE " ++ whereClause ++ " ")
    ("ORDER BY l." ++ sort ++ " " ++ sortOrder)
    (" LIMIT $" ++ JS.show_nat (b_paramIndex b)
       ++ " OFFSET $" ++ JS.show_nat (b_paramIndex b + 1))
    (b_params b ++ [VNum limit; VNum offset]).

(** The WHERE clause of that statement, evaluated on a lead. *)
Definition where_ (tenantId : uuid) (filters : LeadFilters) (s : Store) (l : Lead) : bool :=
  let c := join_contact s l in
  let col (f : Contact -> option string) := match c with Some c' => f c' | None => None end in
  let pattern := "%" ++ dflt (f_q filters) "" ++ "%" in
  (l_tenant_id l =? tenantId)%nat
  && (if JS.truthy (f_status filters) then l_status l =? dflt (f_status filters) "" else true)
  && (if JS.truthy (f_stage filters) then l_stage l =? dflt (f_stage filters) "" else true)
  && (match f_owner filters with
      | Some o => sql_eq_id (l_owner_user_id l) o
      | None => true
      end)
  && (match f_exhibition_id filters with
      | Some e => match l_exhibition_id l with Some x => (x =? e)%Z | None => false end
      | None => true
      end)
  && (if JS.truthy (f_q filters)
      then Pg.ilike (l_title l) pattern || Pg.ilike (col c_first_name) pattern
           || Pg.ilike (col c_last_name) pattern || Pg.ilike (col c_email) pattern
      else true).

(** [const { rows } = await db.query(query, queryParams)] and the
    [{ leads, totalCount }] built from it.  The store resolves the sort
    column, the direction and LIMIT/OFFSET, and fails on any of them it
    cannot accept. *)
Definition getLeadsWithFilters (tenantId : uuid) (filters : LeadFilters) (s : Store)
  : outcome (list LeadRow * Z) :=
  let page := dflt (f_page filters) 1%Z in
  let limit := dflt (f_limit filters) 20%Z in
  let sort := dflt (f_sort filters) "created_at" in
  let order := dflt (f_order filters) "desc" in
  let offset := ((page - 1) * limit)%Z in
  let sortOrder := JS.toUpperCase order in
  match lead_key sort, Pg.direction_of sortOrder, Pg.limit_offset limit offset with
  | Some k, Some d, Some (lim, off) =>
      let matching := filter (where_ tenantId filters s) (leads s) in
      let rows := Pg.window_page (Pg.sort_by (Pg.by_key d k) matching) lim off in
      let totalCount := Pg.totalCount rows in
      Returned (map (lead_row s) (Pg.strip_count rows), totalCount)
  | _, _, _ => Thrown "query failed"
  end.

End LeadModel.

(* ------------------------------------------------------------------ *)
(** ** TagModel *)

Module TagModel.

Definition conflicts (tenantId : uuid) (name : string) (t : Tag) : bool :=
  (t_tenant_id t =? tenantId)%nat && (t_name t =? name).

(** [INSERT INTO tags ... VALUES (gen_random_uuid(), $1, $2)
    ON CONFLICT (tenant_id, name) DO UPDATE SET name = EXCLUDED.name
    RETURNING id, name] with [$2 = tagName.trim()].  On conflict the
    row is rewritten with the name it already has. *)
Definition createOrGet (tenantId : uuid) (tagName : string) (s : Store)
  : Store * (uuid * string) :=
  let name := JS.trim tagName in
  match find (conflicts tenantId name) (tags s) with
  | Some t => (s, (t_id t, name))
  | None =>
      (bump_id (with_tags s (tags s ++ [mkTag (next_id s) tenantId name])),
       (next_id s, name))
  end.

Definition same_link (leadId tagId : uuid) (p : uuid * uuid) : bool :=
  (fst p =? leadId)%nat && (snd p =? tagId)%nat.

(** [INSERT INTO lead_tags (lead_id, tag_id) VALUES ($1, $2)
    ON CONFLICT (lead_id, tag_id) DO NOTHING] *)
Definition linkToLead (leadId tagId : uuid) (s : Store) : Store * unit :=
  if existsb (same_link leadId tagId) (lead_tags s) then (s, tt)
  else (with_lead_tags s (lead_tags s ++ [(leadId, tagId)]), tt).

(** [DELETE FROM lead_tags WHERE lead_id = $1 AND tag_id = (SELECT t.id
    FROM tags t WHERE t.name = $2 AND t.tenant_id = $3); rowCount > 0].
    The scalar subquery is NULL without a matching tag and an error
    with more than one. *)
Definition removeFromLead (leadId : uuid) (tagName : string) (tenantId : uuid) (s : Store)
  : outcome (Store * bool) :=
  match filter (conflicts tenantId tagName) (tags s) with
  | [] => Returned (s, false)
  | [t] =>
      Returned
        (with_lead_tags s (filter (fun p => negb (same_link leadId (t_id t) p)) (lead_tags s)),
         existsb (same_link leadId (t_id t)) (lead_tags s))
  | _ => Thrown "more than one row returned by a subquery used as an expression"
  end.

(** The statement and parameters that [findAll] hands to [db.query].
    The search condition interpolates [paramIndex] as it is, without
    the dollar sign of a placeholder. *)
Definition findAll_query (tenantId : uuid) (search sort_by sort_order : option string)
  : Query :=
  let query := "SELECT t.*, COUNT(lt.lead_id) as lead_count FROM tags t "
                 ++ "LEFT JOIN lead_tags lt ON t.id = lt.tag_id WHERE t.tenant_id = $1" in
  let b0 := mkBuilder [] [VId tenantId] 2 in
  let b1 :=
    if JS.truthy search then
      mkBuilder (b_conditions b0 ++ [" AND t.name ILIKE " ++ JS.show_nat (b_paramIndex b0)])
                (b_params b0 ++ [VStr ("%" ++ dflt search "" ++ "%")])
                (S (b_paramIndex b0))
    else b0 in
  mkQuery
    (query ++ JS.join "" (b_conditions b1) ++ " GROUP BY t.id")
    (if JS.truthy sort_by then
       let sortField := JS.strip_sort_chars (dflt sort_by "") in
       let sortOrder :=
         match option_map JS.toUpperCase sort_order with
         | Some o => if o =? "DESC" then "DESC" else "ASC"
         | None => "ASC"
         end in
       " ORDER BY " ++ sortField ++ " " ++ sortOrder
     else " ORDER BY lead_count DESC, t.name ASC")
    ""
    (b_params b1).

End TagModel.

(* ------------------------------------------------------------------ *)
(** ** UserModel *)

Module UserModel.

(** [SELECT id FROM team_users WHERE id = $1 AND tenant_id = $2 AND
    is_active = true; rows.length > 0] *)
Definition validateUser (userId tenantId : uuid) (s : Store) : bool :=
  existsb (fun u => (u_id u =? userId)%nat && (u_tenant_id u =? tenantId)%nat
                    && u_is_active u)
          (team_users s).

End UserModel.


(* ------------------------------------------------------------------ *)
(** ** TaskModel *)

Record TaskData := mkTaskData {
  td_lead_id : option uuid;
  td_contact_id : option uuid;
  td_assigned_to : option uuid;
  td_title : string;
  td_due_at : option timestamp;
  td_priority : option string
}.

Record TaskFilters := mkTaskFilters {
  tf_status : option string;
  tf_assigned_to : option uuid;
  tf_due_before : option timestamp;
  tf_due_after : option timestamp;
  tf_priority : option string;
  tf_page : option Z;
  tf_limit : option Z
}.

(** The display columns joined to a task or an interaction. *)
Record Display := mkDisplay {
  d_lead_title : option string;
  d_contact_name : option string;
  d_contact_email : option string;
  d_user_name : option string;
  d_user_email : option string
}.

(** SQL [a || ' ' || b]: NULL when either side is NULL. *)
Definition sql_full_name (a b : option string) : option string :=
  match a, b with
  | Some x, Some y => Some (x ++ " " ++ y)
  | _, _ => None
  end.

(** [LEFT JOIN leads l ON x.lead_id = l.id
     LEFT JOIN contacts c ON x.contact_id = c.id
     LEFT JOIN team_users tu ON x.<user> = tu.id] *)
Definition display (s : Store) (lead_id contact_id user_id : option uuid) : Display :=
  let l := match lead_id with
           | Some i => find (fun l => (l_id l =? i)%nat) (leads s)
           | None => None
           end in
  let c := match contact_id with
           | Some i => find (fun c => (c_id c =? i)%nat) (contacts s)
           | None => None
           end in
  let u := match user_id with
           | Some i => find (fun u => (u_id u =? i)%nat) (team_users s)
           | None => None
           end in
  mkDisplay (match l with Some l' => l_title l' | None => None end)
            (match c with
             | Some c' => sql_full_name (c_first_name c') (c_last_name c')
             | None => None
             end)
            (match c with Some c' => c_email c' | None => None end)
            (option_map u_name u)
            (option_map u_email u).

Record TaskRow := mkTaskRow {
  tr_task : Task;
  tr_display : Display
}.

Definition with_tasks (s : Store) (ts : list Task) : Store :=
  mkStore (tenants s) (team_users s) (companies s) (contacts s) (leads s) (tags s)
          (lead_tags s) ts (interactions s) (activity_log s)
          (next_id s) (clock s).

Definition key_lt (a b : Pg.key) : bool := negb (Pg.key_leb b a).

Module TaskModel.

(** [CASE WHEN t.priority = 'urgent' THEN 1 ... END] *)
Definition priority_rank (t : Task) : Pg.key :=
  if k_priority t =? "urgent" then Pg.KNum 1
  else if k_priority t =? "high" then Pg.KNum 2
  else if k_priority t =? "normal" then Pg.KNum 3
  else if k_priority t =? "low" then Pg.KNum 4
  else Pg.KNull.

(** [ORDER BY <rank>, t.due_at ASC NULLS LAST, t.created_at DESC] *)
Definition order (x y : Task) : bool :=
  let due t := opt_key nat_key (k_due_at t) in
  if key_lt (priority_rank x) (priority_rank y) then true
  else if key_lt (priority_rank y) (priority_rank x) then false
  else if key_lt (due x) (due y) then true
  else if key_lt (due y) (due x) then false
  else (k_created_at y <=? k_created_at x)%nat.

Definition where_ (tenantId : uuid) (filters : TaskFilters) (t : Task) : bool :=
  (k_tenant_id t =? tenantId)%nat
  && (if JS.truthy (tf_status filters) then k_status t =? dflt (tf_status filters) "" else true)
  && (match tf_assigned_to filters with
      | Some a => sql_eq_id (k_assigned_to t) a
      | None => true
      end)
  && (match tf_due_before filters with
      | Some d => match k_due_at t with Some x => (x <=? d)%nat | None => false end
      | None => true
      end)
  && (match tf_due_after filters with
      | Some d => match k_due_at t with Some x => (d <=? x)%nat | None => false end
      | None => true
      end)
  && (if JS.truthy (tf_priority filters)
      then k_priority t =? dflt (tf_priority filters) "" else true).

Definition task_row (s : Store) (t : Task) : TaskRow :=
  mkTaskRow t (display s (k_lead_id t) (k_contact_id t) (k_assigned_to t)).

Definition getTasksWithFilters (tenantId : uuid) (filters : TaskFilters) (s : Store)
  : outcome (list TaskRow * Z) :=
  let page := dflt (tf_page filters) 1%Z in
  let limit := dflt (tf_limit filters) 20%Z in
  let offset := ((page - 1) * limit)%Z in
  match Pg.limit_offset limit offset with
  | Some (lim, off) =>
      let matching := filter (where_ tenantId filters) (tasks s) in
      let rows := Pg.window_page (Pg.sort_by order matching) lim off in
      let totalCount := Pg.totalCount rows in
      Returned (map (task_row s) (Pg.strip_count rows), totalCount)
  | None => Thrown "query failed"
  end.

(** [INSERT INTO tasks (id, tenant_id, lead_id, contact_id, assigned_to,
    title, due_at, priority) ... RETURNING *]; [status] and
    [created_at] take the column defaults. *)
Definition create (tenantId : uuid) (taskData : TaskData) (s : Store) : Store * Task :=
  let row :=
    mkTask (next_id s) tenantId (td_lead_id taskData) (td_contact_id taskData)
           (td_assigned_to taskData) (td_title taskData) (td_due_at taskData)
           (dflt (td_priority taskData) "normal") "open" (clock s) in
  (bump_id (with_tasks s (tasks s ++ [row])), row).

End TaskModel.

(* ------------------------------------------------------------------ *)
(** ** InteractionModel *)

Record InteractionFilters := mkInteractionFilters {
  if_lead_id : option uuid;
  if_contact_id : option uuid;
  if_channel : option string;
  if_direction : option string;
  (** dates, as day numbers *)
  if_date_from : option nat;
  if_date_to : option nat;
  if_page : option Z;
  if_limit : option Z
}.

Record InteractionRow := mkInteractionRow {
  ir_interaction : Interaction;
  ir_display : Display
}.

(** [DATE(i.occurred_at)], with time counted in seconds. *)
Definition DATE (t : timestamp) : nat := t / (24 * 3600).

Module InteractionModel.

Definition where_ (tenantId : uuid) (filters : InteractionFilters) (i : Interaction) : bool :=
  (i_tenant_id i =? tenantId)%nat
  && (match if_lead_id filters with
      | Some x => sql_eq_id (i_lead_id i) x
      | None => true
      end)
  && (match if_contact_id filters with
      | Some x => sql_eq_id (i_contact_id i) x
      | None => true
      end)
  && (if JS.truthy (if_channel filters)
      then i_channel i =? dflt (if_channel filters) "" else true)
  && (if JS.truthy (if_direction filters)
      then i_direction i =? dflt (if_direction filters) "" else true)
  && (match if_date_from filters with
      | Some d => (d <=? DATE (i_occurred_at i))%nat
      | None => true
      end)
  && (match if_date_to filters with
      | Some d => (DATE (i_occurred_at i) <=? d)%nat
      | None => true
      end).

Definition interaction_row (s : Store) (i : Interaction) : InteractionRow :=
  mkInteractionRow i (display s (i_lead_id i) (i_contact_id i) (i_created_by i)).

Definition getInteractionsWithFilters (tenantId : uuid) (filters : InteractionFilters)
           (s : Store) : outcome (list InteractionRow * Z) :=
  let page := dflt (if_page filters) 1%Z in
  let limit := dflt (if_limit filters) 20%Z in
  let offset := ((page - 1) * limit)%Z in
  match Pg.limit_offset limit offset with
  | Some (lim, off) =>
      let matching := filter (where_ tenantId filters) (interactions s) in
      let rows :=
        Pg.window_page
          (Pg.sort_by (Pg.by_key Pg.DESC (fun i => nat_key (i_occurred_at i))) matching)
          lim off in
      let totalCount := Pg.totalCount rows in
      Returned (map (interaction_row s) (Pg.strip_count rows), totalCount)
  | None => Thrown "query failed"
  end.

End InteractionModel.

(* ------------------------------------------------------------------ *)
(** ** CompanyModel *)

Record CompanyData := mkCompanyData {
  cod_name : option string;
  cod_website : option string;
  cod_phone : option string;
  cod_address : option string
}.

Definition with_companies (s : Store) (cs : list Company) : Store :=
  mkStore (tenants s) (team_users s) cs (contacts s) (leads s) (tags s)
          (lead_tags s) (tasks s) (interactions s) (activity_log s)
          (next_id s) (clock s).

Module CompanyModel.

Definition targets (companyId tenantId : uuid) (c : Company) : bool :=
  (co_id c =? companyId)%nat && (co_tenant_id c =? tenantId)%nat.

Definition apply_update (companyData : CompanyData) (now : timestamp) (c : Company)
  : Company :=
  mkCompany (co_id c) (co_tenant_id c)
            (dflt (cod_name companyData) (co_name c))
            (coalesce (cod_website companyData) (co_website c))
            (coalesce (cod_phone companyData) (co_phone c))
            (coalesce (cod_address companyData) (co_address c))
            (co_created_at c) now.

(** [UPDATE companies SET name = COALESCE($1, name), ...,
    updated_at = CURRENT_TIMESTAMP WHERE id = $5 AND tenant_id = $6
    RETURNING *; rows[0]] *)
Definition update (companyId tenantId : uuid) (companyData : CompanyData) (s : Store)
  : Store * option Company :=
  let rewrite c :=
    if targets companyId tenantId c then apply_update companyData (clock s) c else c in
  let s' := with_companies s (map rewrite (companies s)) in
  (s', find (targets companyId tenantId) (companies s')).

(** [... WHERE c.id = $1 AND c.tenant_id = $2 GROUP BY c.id; rows[0] ||
    null], without the aggregate columns. *)
Definition findById (companyId tenantId : uuid) (s : Store) : option Company :=
  find (targets companyId tenantId) (companies s).

End CompanyModel.

(* ------------------------------------------------------------------ *)
(** ** Connections, transactions and exceptions

    [config/db.js] is not among the sources.  What the callers show of it
    is an object with a [query] function and a [pool]; a handler borrows a
    connection with [db.pool.connect()] and issues BEGIN, COMMIT and
    ROLLBACK on that [client], while every model function calls
    [db.query], which receives no connection. *)

(** The statements a request of this development can issue; the store
    may reject any of them.  [SetTenant] is [SET LOCAL app.tenant_id]: the
    session binding and the row policy it feeds belong to the store and
    are not modelled beyond the statement being accepted or rejected. *)
Inductive Statement :=
| SetTenant
| SelectTenant | SelectUser | SelectCompany
| SelectContact | InsertContact | UpdateContact
| SelectLead | InsertLead | UpdateLead
| InsertActivityLog
| UpsertTag | InsertLeadTag
| SelectTask | InsertTask
| SelectInteraction.

Scheme Equality for Statement.

Record World := mkWorld {
  (** the committed rows, as every pool connection sees them *)
  db : Store;
  (** the borrowed [client]: [Some pending] between BEGIN and
      COMMIT/ROLLBACK, with the rows written on that connection *)
  client_tx : option (list ActivityLog);
  (** the statements the store rejects during this request *)
  rejects : Statement -> bool
}.

Definition no_faults : Statement -> bool := fun _ => false.
Definition fault_at (st : Statement) : Statement -> bool := Statement_beq st.

Definition M (A : Type) : Type := World -> World * outcome A.

Definition ret {A : Type} (a : A) : M A := fun w => (w, Returned a).

Definition bind {A B : Type} (m : M A) (k : A -> M B) : M B :=
  fun w =>
    match m w with
    | (w', Returned a) => k a w'
    | (w', Thrown e) => (w', Thrown e)
    end.

Notation "x <- c1 ;; c2" := (bind c1 (fun x => c2))
  (at level 61, c1 at next level, right associativity).
Notation "c1 ;;; c2" := (bind c1 (fun _ => c2))
  (at level 61, right associativity).

(** [try { body } catch (error) { handler }] *)
Definition try_catch {A : Type} (body : M A) (handler : string -> M A) : M A :=
  fun w =>
    match body w with
    | (w', Returned a) => (w', Returned a)
    | (w', Thrown e) => handler e w'
    end.

(** Modelled from the spec: [config/db.js] is not among the sources.  Its
    [query] is the store collaborator's "parameterized query execution";
    every caller hands it a statement and its parameters and no
    connection, so it is a statement of its own on a connection of the
    pool, outside the transaction a handler opened on a borrowed
    [client]: its writes are committed when it returns. *)
Definition db_query {A : Type} (st : Statement) (f : Store -> Store * A) : M A :=
  fun w =>
    if rejects w st then (w, Thrown "query failed")
    else let (s', a) := f (db w) in
         (mkWorld s' (client_tx w) (rejects w), Returned a).

Definition db_read {A : Type} (st : Statement) (f : Store -> A) : M A :=
  db_query st (fun s => (s, f s)).

(** [db.query] for a statement the store may fail to run. *)
Definition db_exec {A : Type} (st : Statement) (f : Store -> outcome (Store * A)) : M A :=
  fun w =>
    if rejects w st then (w, Thrown "query failed")
    else match f (db w) with
         | Returned (s', a) => (mkWorld s' (client_tx w) (rejects w), Returned a)
         | Thrown e => (w, Thrown e)
         end.

Definition db_select {A : Type} (st : Statement) (f : Store -> outcome A) : M A :=
  db_exec st (fun s => match f s with
                       | Returned a => Returned (s, a)
                       | Thrown e => Thrown e
                       end).

(** [client.query('BEGIN')] *)
Definition client_begin : M unit :=
  fun w => (mkWorld (db w) (Some []) (rejects w), Returned tt).

(** [client.query('COMMIT')]: the rows written on [client] become
    visible. *)
Definition client_commit : M unit :=
  fun w =>
    let pending := dflt (client_tx w) [] in
    (mkWorld (with_activity_log (db w) (activity_log (db w) ++ pending)) None (rejects w),
     Returned tt).

(** [client.query('ROLLBACK')]: the rows written on [client] are
    dropped. *)
Definition client_rollback : M unit :=
  fun w => (mkWorld (db w) None (rejects w), Returned tt).

(** [client.release()] *)
Definition client_release : M unit := ret tt.

(** [client.query('SELECT id FROM tenants WHERE id = $1', [tenant_id])] *)
Definition client_select_tenant (tenant_id : uuid) : M (list uuid) :=
  fun w =>
    if rejects w SelectTenant then (w, Thrown "query failed")
    else (w, Returned (filter (fun t => (t =? tenant_id)%nat) (tenants (db w)))).

(** [client.query(activityQuery, [...])]: an INSERT on the borrowed
    connection; outside a transaction it commits at once. *)
Definition client_insert_activity (row : uuid -> ActivityLog) : M unit :=
  fun w =>
    if rejects w InsertActivityLog then (w, Thrown "query failed")
    else
      let r := row (next_id (db w)) in
      match client_tx w with
      | Some pending =>
          (mkWorld (bump_id (db w)) (Some (pending ++ [r])%list) (rejects w), Returned tt)
      | None =>
          (mkWorld (bump_id (with_activity_log (db w) (activity_log (db w) ++ [r])))
                   None (rejects w), Returned tt)
      end.

(** [client.query("SET LOCAL app.tenant_id = ...")] *)
Definition client_set_tenant : M unit :=
  fun w => if rejects w SetTenant then (w, Thrown "query failed") else (w, Returned tt).

(** [try { body } finally { cleanup }] *)
Definition finally {A : Type} (body : M A) (cleanup : M unit) : M A :=
  fun w =>
    match body w with
    | (w', r) => (fst (cleanup w'), r)
    end.

(* ------------------------------------------------------------------ *)
(** ** Responses *)

Record Response (D : Type) := mkResponse {
  status : nat;
  success : bool;
  message : string;
  data : option D
}.
Arguments mkResponse {D}.
Arguments status {D}.
Arguments success {D}.
Arguments message {D}.
Arguments data {D}.

Definition sendError {D : Type} (status : nat) (message : string) : Response D :=
  mkResponse status false message None.

Definition sendSuccess {D : Type} (status : nat) (data : D) (message : string) : Response D :=
  mkResponse status true message (Some data).

(** [s.includes(needle)] *)
Definition includes (s needle : string) : bool :=
  match String.index 0 needle s with
  | Some _ => true
  | None => false
  end.

(* ------------------------------------------------------------------ *)
(** ** webhookController *)

Record Visitor := mkVisitor {
  v_first_name : option string;
  v_last_name : option string;
  v_email : option string;
  v_phone : option string;
  v_kf_visitor_id : option string;
  v_dob : option string
}.

Record WebhookBody := mkWebhookBody {
  w_tenant_id : uuid;
  w_visitor : option Visitor;
  w_exhibition_id : option Z;
  w_join_id : option Z;
  w_scan_time : option string;
  (** [context]: absent, or an object whose [notes] may be absent *)
  w_context : option (option string)
}.

Record LeadCaptured := mkLeadCaptured {
  lc_lead_id : uuid;
  lc_contact_id : option uuid;
  lc_message : string
}.

(** [visitor?.field] *)
Definition opt_field (visitor : option Visitor) (f : Visitor -> option string) : option string :=
  match visitor with
  | Some v => f v
  | None => None
  end.

(** A value interpolated in a template literal. *)
Definition interpolate (v : option string) : string := dflt v "undefined".

Module webhookController.

(** The bag built under "Update contact with visitor data if needed". *)
Definition updateData (visitor : Visitor) (existingContact : Contact) : ContactData :=
  mkContactData
    (if JS.truthy (v_first_name visitor) && negb (JS.truthy (c_first_name existingContact))
     then v_first_name visitor else None)
    (if JS.truthy (v_last_name visitor) && negb (JS.truthy (c_last_name existingContact))
     then v_last_name visitor else None)
    None None None None
    (if JS.truthy (v_kf_visitor_id visitor) then v_kf_visitor_id visitor else None)
    None.

(** [Object.keys(updateData).length] *)
Definition keys_length (d : ContactData) : nat :=
  (if present (cd_first_name d) then 1 else 0)
  + (if present (cd_last_name d) then 1 else 0)
  + (if present (cd_kf_visitor_id d) then 1 else 0).

Definition leadData (req : WebhookBody) (contactId : option uuid) : LeadData :=
  let visitor := w_visitor req in
  mkLeadData
    contactId None
    (Some (JS.trim ("FairEx Lead - "
                    ++ JS.or_default (opt_field visitor v_first_name) "Visitor"
                    ++ " "
                    ++ JS.or_default (opt_field visitor v_last_name) "")))
    (Some "new") (Some "lead") (Some 0%Z) (Some "fairex")
    (w_exhibition_id req) (w_join_id req)
    None None None
    (Some (JS.or_default
             (match w_context req with Some notes => notes | None => None end)
             ("Lead captured from FairEx exhibition at " ++ interpolate (w_scan_time req)))).

Definition activityRow (req : WebhookBody) (lead : Lead) (now : timestamp) (id : uuid)
  : ActivityLog :=
  mkActivityLog id (w_tenant_id req) "lead" (l_id lead) "created_via_webhook"
                (mkSnapshot "fairex_webhook" (w_exhibition_id req) (w_join_id req)
                            (w_context req))
                (match w_scan_time req with
                 | Some t => if t =? "" then inr now else inl t
                 | None => inr now
                 end).

(** Steps 3 of the pipeline: resolve or create the contact. *)
Definition resolveContact (req : WebhookBody) : M (option uuid) :=
  let tenant_id := w_tenant_id req in
  match w_visitor req with
  | Some visitor =>
      if JS.truthy (v_email visitor) || JS.truthy (v_phone visitor) then
        existingContact <- db_read SelectContact
          (ContactModel.findByEmailOrPhone tenant_id (v_email visitor) (v_phone visitor)) ;;
        match existingContact with
        | Some existing =>
            let contactId := c_id existing in
            let upd := updateData visitor existing in
            (if (0 <? keys_length upd)%nat
             then db_query UpdateContact (ContactModel.update contactId tenant_id upd) ;;; ret tt
             else ret tt) ;;;
            ret (Some contactId)
        | None =>
            newContact <- db_query InsertContact
              (ContactModel.create tenant_id
                 (mkContactData (v_first_name visitor) (v_last_name visitor)
                                (v_email visitor) (v_phone visitor) (v_dob visitor)
                                None (v_kf_visitor_id visitor) (Some "fairex"))) ;;
            ret (Some (c_id newContact))
        end
      else ret None
  | None => ret None
  end.

Definition handleLeadCaptured (req : WebhookBody) : M (Response LeadCaptured) :=
  (* const client = await db.pool.connect(); *)
  finally
    (try_catch
       (client_begin ;;;
        tenantRows <- client_select_tenant (w_tenant_id req) ;;
        if (List.length tenantRows =? 0)%nat then
          ret (sendError 422 "Invalid tenant ID")
        else
          client_set_tenant ;;;
          contactId <- resolveContact req ;;
          lead <- db_query InsertLead
                    (LeadModel.create (w_tenant_id req) (leadData req contactId)) ;;
          now <- (fun w => (w, Returned (clock (db w)))) ;;
          client_insert_activity (activityRow req lead now) ;;;
          client_commit ;;;
          ret (sendSuccess 200
                 (mkLeadCaptured (l_id lead) contactId "Lead captured successfully")
                 "Webhook processed successfully"))
       (fun error =>
          client_rollback ;;;
          if includes error "signature" then ret (sendError 401 "Invalid signature")
          else ret (sendError 500 "Webhook processing failed")))
    client_release.

End webhookController.

(* ------------------------------------------------------------------ *)
(** ** leadsController, tasksController, interactionsController *)

(** [req.user], as the authentication middleware leaves it. *)
Record AuthUser := mkAuthUser {
  au_id : uuid;
  au_tenant_id : uuid
}.

(** [const { contact, ...leadData } = req.body] *)
Record CreateLeadBody := mkCreateLeadBody {
  b_contact : option ContactData;
  b_leadData : LeadData
}.

Record Pagination := mkPagination {
  pg_page : Z;
  pg_limit : Z;
  pg_total : Z;
  (** [Math.ceil(totalCount / limit)]; [None] when it is not a finite
      number *)
  pg_pages : option Z
}.

Record Listing (R : Type) := mkListing {
  items : list R;
  pagination : Pagination
}.
Arguments mkListing {R}.
Arguments items {R}.
Arguments pagination {R}.

(** [Math.ceil(a / b)] on integers. *)
Definition Math_ceil_div (a b : Z) : option Z :=
  if (b =? 0)%Z then None else Some (- ((- a) / b))%Z.

(** The [pagination] object of the list handlers, with
    [page = parseInt(filters.page || 1)] and
    [limit = parseInt(filters.limit || 20)]. *)
Definition paginate (page limit : option Z) (totalCount : Z) : Pagination :=
  let page := dflt page 1%Z in
  let limit := dflt limit 20%Z in
  mkPagination page limit totalCount (Math_ceil_div totalCount limit).

Module leadsController.

Definition getLeads (user : AuthUser) (filters : LeadFilters)
  : M (Response (Listing LeadRow)) :=
  try_catch
    (r <- db_select SelectLead (LeadModel.getLeadsWithFilters (au_tenant_id user) filters) ;;
     let '(leads, totalCount) := r in
     ret (sendSuccess 200
            (mkListing leads (paginate (f_page filters) (f_limit filters) totalCount))
            "Success"))
    (fun _ => ret (sendError 500 "Failed to fetch leads")).

(** "Handle contact creation/finding" *)
Definition resolveContact (user : AuthUser) (body : CreateLeadBody) : M (option uuid) :=
  match b_contact body with
  | Some contact =>
      if JS.truthy (cd_email contact) || JS.truthy (cd_phone contact) then
        existingContact <- db_read SelectContact
          (ContactModel.findByEmailOrPhone (au_tenant_id user)
                                           (cd_email contact) (cd_phone contact)) ;;
        match existingContact with
        | Some existing => ret (Some (c_id existing))
        | None =>
            newContact <- db_query InsertContact
              (ContactModel.create (au_tenant_id user)
                 (mkContactData (cd_first_name contact) (cd_last_name contact)
                                (cd_email contact) (cd_phone contact) (cd_dob contact)
                                (cd_company_id contact) (cd_kf_visitor_id contact)
                                (Some (JS.or_default (ld_source (b_leadData body)) "manual")))) ;;
            ret (Some (c_id newContact))
        end
      else ret None
  | None => ret None
  end.

(** [{ ...leadData, contact_id: contactId, owner_user_id: req.user.id }] *)
Definition leadRecord (user : AuthUser) (body : CreateLeadBody) (contactId : option uuid)
  : LeadData :=
  let d := b_leadData body in
  mkLeadData contactId (Some (au_id user)) (ld_title d) (ld_status d) (ld_stage d)
             (ld_score d) (ld_source d) (ld_exhibition_id d) (ld_join_id d)
             (ld_utm_source d) (ld_utm_medium d) (ld_utm_campaign d) (ld_notes d).

Definition createLead (user : AuthUser) (body : CreateLeadBody)
  : M (Response (option CompleteLead)) :=
  finally
    (try_catch
       (client_begin ;;;
        client_set_tenant ;;;
        contactId <- resolveContact user body ;;
        lead <- db_query InsertLead
                  (LeadModel.create (au_tenant_id user) (leadRecord user body contactId)) ;;
        client_commit ;;;
        completeLead <- db_read SelectLead (LeadModel.getCompleteLeadData (l_id lead)) ;;
        ret (sendSuccess 201 completeLead "Lead created successfully"))
       (fun _ =>
          client_rollback ;;;
          ret (sendError 500 "Failed to create lead")))
    client_release.

(** [updates.owner_user_id], when the bag carries a truthy one. *)
Definition owner_of (updates : Bag) : option uuid :=
  match find (fun kv => fst kv =? "owner_user_id") updates with
  | Some (_, VId u) => Some u
  | _ => None
  end.

Definition updateLead (user : AuthUser) (id : uuid) (updates : Bag)
  : M (Response (option Lead)) :=
  try_catch
    (leadExists <- db_read SelectLead (LeadModel.exists_ id (au_tenant_id user)) ;;
     if negb leadExists then ret (sendError 404 "Lead not found")
     else
       ownerValid <-
         match owner_of updates with
         | Some o => db_read SelectUser (UserModel.validateUser o (au_tenant_id user))
         | None => ret true
         end ;;
       if negb ownerValid then ret (sendError 422 "Invalid owner user ID")
       else
         updatedLead <- db_exec UpdateLead (LeadModel.update id (au_tenant_id user) updates) ;;
         ret (sendSuccess 200 updatedLead "Lead updated successfully"))
    (fun _ => ret (sendError 500 "Failed to update lead")).

(** [for (const tagName of tags) { ... addedTags.push(tag) }] *)
Fixpoint addEach (tenantId leadId : uuid) (tags : list string) : M (list (uuid * string)) :=
  match tags with
  | [] => ret []
  | tagName :: rest =>
      tag <- db_query UpsertTag (TagModel.createOrGet tenantId tagName) ;;
      db_query InsertLeadTag (TagModel.linkToLead leadId (fst tag)) ;;;
      added <- addEach tenantId leadId rest ;;
      ret (tag :: added)
  end.

Definition addTagsToLead (user : AuthUser) (id : uuid) (tags : list string)
  : M (Response (list (uuid * string))) :=
  finally
    (try_catch
       (client_begin ;;;
        client_set_tenant ;;;
        leadExists <- db_read SelectLead (LeadModel.exists_ id (au_tenant_id user)) ;;
        if negb leadExists then ret (sendError 404 "Lead not found")
        else
          addedTags <- addEach (au_tenant_id user) id tags ;;
          client_commit ;;;
          ret (sendSuccess 200 addedTags "Tags added successfully"))
       (fun _ =>
          client_rollback ;;;
          ret (sendError 500 "Failed to add tags")))
    client_release.

End leadsController.

Module tasksController.

Definition getTasks (user : AuthUser) (filters : TaskFilters)
  : M (Response (Listing TaskRow)) :=
  try_catch
    (r <- db_select SelectTask (TaskModel.getTasksWithFilters (au_tenant_id user) filters) ;;
     let '(tasks, totalCount) := r in
     ret (sendSuccess 200
            (mkListing tasks (paginate (tf_page filters) (tf_limit filters) totalCount))
            "Success"))
    (fun _ => ret (sendError 400 "Failed to fetch tasks")).

Definition createTask (user : AuthUser) (taskData : TaskData) : M (Response Task) :=
  finally
    (try_catch
       (client_begin ;;;
        client_set_tenant ;;;
        userValid <-
          match td_assigned_to taskData with
          | Some a => db_read SelectUser (UserModel.validateUser a (au_tenant_id user))
          | None => ret true
          end ;;
        if negb userValid then ret (sendError 422 "Invalid assigned_to user ID")
        else
          task <- db_query InsertTask (TaskModel.create (au_tenant_id user) taskData) ;;
          client_commit ;;;
          ret (sendSuccess 201 task "Task created successfully"))
       (fun _ =>
          client_rollback ;;;
          ret (sendError 422 "Failed to create task")))
    client_release.

End tasksController.

Module interactionsController.

Definition getInteractions (user : AuthUser) (filters : InteractionFilters)
  : M (Response (Listing InteractionRow)) :=
  try_catch
    (r <- db_select SelectInteraction
            (InteractionModel.getInteractionsWithFilters (au_tenant_id user) filters) ;;
     let '(interactions, totalCount) := r in
     ret (sendSuccess 200
            (mkListing interactions (paginate (if_page filters) (if_limit filters) totalCount))
            "Success"))
    (fun _ => ret (sendError 400 "Failed to fetch interactions")).

End interactionsController.

(** [a === b] on values that are strings, [null] or [undefined]; a stored
    NULL reads as [null] and an absent key as [undefined], which differ. *)
Definition sql_eq_js (stored given : option string) : bool :=
  match stored, given with
  | Some a, Some b => a =? b
  | _, _ => false
  end.

Module contactsController.

(** The [errors] of a conflict answer name the field in [data]. *)
Inductive Created :=
| CreatedContact (contact : option Contact)
| Conflict (field : string).

Definition createContact (user : AuthUser) (contactData : ContactData)
  : M (Response Created) :=
  try_catch
    (companyExists <-
       match cd_company_id contactData with
       | Some company_id =>
           db_read SelectCompany
             (fun s => present (CompanyModel.findById company_id (au_tenant_id user) s))
       | None => ret true
       end ;;
     if negb companyExists then ret (sendError 422 "Invalid company ID")
     else
       existing <-
         (if JS.truthy (cd_email contactData) || JS.truthy (cd_phone contactData)
          then db_read SelectContact
                 (ContactModel.findByEmailOrPhone (au_tenant_id user)
                    (cd_email contactData) (cd_phone contactData))
          else ret None) ;;
       match existing with
       | Some e =>
           let conflictField :=
             if sql_eq_js (c_email e) (cd_email contactData) then "email" else "phone" in
           ret (mkResponse 422 false "Contact with this email or phone already exists"
                           (Some (Conflict conflictField)))
       | None =>
           contact <- db_query InsertContact
             (ContactModel.create (au_tenant_id user)
                (mkContactData (cd_first_name contactData) (cd_last_name contactData)
                               (cd_email contactData) (cd_phone contactData)
                               (cd_dob contactData) (cd_company_id contactData)
                               (cd_kf_visitor_id contactData)
                               (Some (JS.or_default (cd_source contactData) "manual")))) ;;
           completeContact <- db_read SelectContact
             (ContactModel.findById (c_id contact) (au_tenant_id user)) ;;
           ret (sendSuccess 201 (CreatedContact completeContact)
                            "Contact created successfully")
       end)
    (fun _ => ret (sendError 422 "Failed to create contact")).

End contactsController.

(* ------------------------------------------------------------------ *)
(** ** Reading results, and the scenarios used below *)

Definition returned {A : Type} (o : outcome A) : option A :=
  match o with
  | Returned a => Some a
  | Thrown _ => None
  end.

(** The response a handler run ends with. *)
Definition response {D : Type} (run : World * outcome (Response D)) : option (Response D) :=
  returned (snd run).

(** The [data] of the response a handler run ends with. *)
Definition payload {D : Type} (run : World * outcome (Response D)) : option D :=
  match response run with
  | Some r => data r
  | None => None
  end.

(** The store a handler run leaves behind. *)
Definition after {A : Type} (run : World * outcome A) : Store := db (fst run).

(** A world at rest: no transaction open, every statement accepted. *)
Definition quiet (s : Store) : World := mkWorld s None no_faults.

(** Two tenants, [1] and [2], and no rows. *)
Definition empty_store : Store := mkStore [1; 2] [] [] [] [] [] [] [] [] [] 100 50.

(** The payload of the webhook scenario of the specification:
    [{tenant_id: T, visitor: {email: "j@x.com"}, exhibition_id: 1,
      join_id: 2, scan_time: "2024-01-01T00:00:00Z"}]. *)
Definition scenario_request : WebhookBody :=
  mkWebhookBody 1 (Some (mkVisitor None None (Some "j@x.com") None None None))
                (Some 1%Z) (Some 2%Z) (Some "2024-01-01T00:00:00Z") None.

Definition plain_lead (id tenant : uuid) (title : string) (score : Z) (created : timestamp)
  : Lead :=
  mkLead id tenant None None (Some title) "new" "lead" score "manual"
         None None None None None None created created.

(** Tenant [1] owns three leads, tenant [2] one. *)
Definition leads_store : Store :=
  mkStore [1; 2]
          [mkUser 5 1 "agent@one.example" "Agent One" "agent" true]
          [] []
          [plain_lead 10 1 "first" 5 1; plain_lead 11 1 "second" 9 2;
           plain_lead 12 1 "third" 1 3; plain_lead 20 2 "confidential deal" 7 4]
          [] []
          [mkTask 30 1 None None None "call back" None "low" "open" 1;
           mkTask 31 1 None None None "send offer" (Some 9) "urgent" "open" 2]
          [mkInteraction 40 1 (Some 10) None "email" "out" None 100 (Some 5);
           mkInteraction 41 1 (Some 11) None "call" "in" None 200 (Some 5)]
          [] 100 50.

Definition agent_one : AuthUser := mkAuthUser 5 1.

Definition no_lead_filters : LeadFilters :=
  mkLeadFilters None None None None None None None None None.

Definition page_two : LeadFilters :=
  mkLeadFilters None None None None None (Some 2%Z) (Some 20%Z) None None.




(** Tenant [1] holds one contact, reachable by phone only. *)
Definition office_line_store : Store :=
  mkStore [1; 2] [] []
          [mkContact 7 1 (Some "Bo") (Some "Berg") (Some "b@x.com") (Some "555") None None
                     None "manual" 1 1]
          [] [] [] [] [] [] 100 50.



(** A contact reference that carries neither an email nor a phone. *)
Definition keyless (email phone : option string) : bool :=
  negb (JS.truthy email || JS.truthy phone).




(** What the webhook does to a stored contact [c] when the visitor was
    matched to [existing]: the row with the id of [existing], in the
    tenant of the request, is rewritten by [ContactModel.update] with the
    bag built from the visitor, provided the bag has a key. *)
Definition webhook_rewrite (tenant_id : uuid) (visitor : Visitor) (existing : Contact)
           (now : timestamp) (c : Contact) : Contact :=
  let upd := webhookController.updateData visitor existing in
  if (0 <? webhookController.keys_length upd)%nat
     && ContactModel.targets (c_id existing) tenant_id c
  then ContactModel.apply_update upd now c
  else c.

(** The contact row the webhook creates for a visitor. *)
Definition webhook_contact (tenant_id : uuid) (visitor : Visitor) (s : Store) : Contact :=
  snd (ContactModel.create tenant_id
         (mkContactData (v_first_name visitor) (v_last_name visitor)
                        (v_email visitor) (v_phone visitor) (v_dob visitor)
                        None (v_kf_visitor_id visitor) (Some "fairex")) s).

(** The frame of a backfill: what a stored contact may look like after
    the webhook matched a visitor.  Every column but the two names and
    the update stamp is as it was; a name is as it was or, when it was
    empty, the name of the visitor; the stamp is as it was or the
    clock. *)
Definition backfilled (visitor : Visitor) (now : timestamp) (before after : Contact) : Prop :=
  c_id after = c_id before
  /\ c_tenant_id after = c_tenant_id before
  /\ c_email after = c_email before
  /\ c_phone after = c_phone before
  /\ c_dob after = c_dob before
  /\ c_company_id after = c_company_id before
  /\ c_kf_visitor_id after = c_kf_visitor_id before
  /\ c_source after = c_source before
  /\ c_created_at after = c_created_at before
  /\ (c_first_name after = c_first_name before
      \/ (JS.truthy (c_first_name before) = false
          /\ c_first_name after = v_first_name visitor))
  /\ (c_last_name after = c_last_name before
      \/ (JS.truthy (c_last_name before) = false
          /\ c_last_name after = v_last_name visitor))
  /\ (c_updated_at after = c_updated_at before \/ c_updated_at after = now).

(** Tenant [1] holds a contact whose last name and visitor id are set and
    whose first name is not. *)
Definition half_named_store : Store :=
  mkStore [1; 2] [] []
          [mkContact 7 1 None (Some "Berg") (Some "a@x.com") (Some "555") None None
                     (Some "kf-1") "manual" 1 1]
          [] [] [] [] [] [] 100 50.

Definition returning_visitor : WebhookBody :=
  mkWebhookBody 1 (Some (mkVisitor (Some "Ann") (Some "Other") (Some "a@x.com") None
                                   (Some "kf-9") None))
                (Some 1%Z) (Some 2%Z) (Some "2024-01-01T00:00:00Z") None.

(** Tenant [1] owns lead [10] and a tag ["hot"] that is not linked yet. *)
Definition tagged_store : Store :=
  mkStore [1; 2] [] [] []
          [plain_lead 10 1 "first" 5 1]
          [mkTag 60 1 "hot"] [(10, 61)]
          [] [] [] 100 50.

(* ------------------------------------------------------------------ *)
(** ** Tactics for handler runs *)

Ltac unfold_m :=
  unfold finally, try_catch, bind, ret, db_read, db_query, db_exec, db_select,
    client_begin, client_commit, client_rollback, client_release,
    client_set_tenant, client_select_tenant, client_insert_activity in *.



(** The same, for runs that also test a key or a count of keys. *)
Ltac run_step' :=
  match goal with
  | |- context [if rejects ?w ?st then _ else _] =>
      let E := fresh "E" in destruct (rejects w st) eqn:E
  | |- context [if (?a =? ?b)%nat then _ else _] =>
      let E := fresh "E" in destruct (a =? b)%nat eqn:E
  | |- context [if (?a <? ?b)%nat then _ else _] =>
      let E := fresh "E" in destruct (a <? b)%nat eqn:E
  | |- context [if JS.truthy ?a || JS.truthy ?b then _ else _] =>
      let E := fresh "E" in destruct (JS.truthy a || JS.truthy b) eqn:E
  | |- context [if includes ?a ?b then _ else _] =>
      destruct (includes a b)
  | |- context [match client_tx ?w with _ => _ end] =>
      let E := fresh "E" in destruct (client_tx w) eqn:E
  end.

(* ------------------------------------------------------------------ *)
(** ** Further scenarios *)

From Stdlib Require Import Sorted.


(** Tenant [1] owns lead [10], linked to its tag ["hot"] (id [60]) and,
    by id, to tag [70], which is the ["hot"] of tenant [2]. *)
Definition shared_name_store : Store :=
  mkStore [1; 2] [] [] []
          [plain_lead 10 1 "first" 5 1]
          [mkTag 60 1 "hot"; mkTag 70 2 "hot"] [(10, 60); (10, 70)]
          [] [] [] 100 50.

(** The sort keys of the task list as numbers: the rank of the CASE
    expression, with [5] for the NULL of an unlisted priority (NULLs sort
    last), and the due date, with [-1] for NULL. *)
Definition rank_code (t : Task) : Z :=
  if k_priority t =? "urgent" then 1
  else if k_priority t =? "high" then 2
  else if k_priority t =? "normal" then 3
  else if k_priority t =? "low" then 4
  else 5.

Definition due_code (t : Task) : Z :=
  match k_due_at t with
  | Some d => Z.of_nat d
  | None => (-1)%Z
  end.

(** [a] sorts strictly before [b] under [ASC NULLS LAST]. *)
Definition due_before (a b : Z) : Prop := (0 <= a /\ (b < 0 \/ a < b))%Z.

(** [x] may stand before [y] in the task list. *)
Definition task_before (x y : Task) : Prop :=
  (rank_code x < rank_code y)%Z
  \/ (rank_code x = rank_code y
      /\ (due_before (due_code x) (due_code y)
          \/ (~ due_before (due_code x) (due_code y)
              /\ ~ due_before (due_code y) (due_code x)
              /\ k_created_at y <= k_created_at x))).

(** The emails stored for a tenant, in storage order. *)
Definition tenant_emails (tenantId : uuid) (cs : list Contact) : list string :=
  flat_map (fun c => if (c_tenant_id c =? tenantId)%nat
                     then match c_email c with Some e => [e] | None => [] end
                     else [])
           cs.

(** The number of occurrences of a character in a text. *)
Fixpoint count_char (a : ascii) (s : string) : nat :=
  match s with
  | EmptyString => 0
  | String b s' => (if Ascii.eqb a b then 1 else 0) + count_char a s'
  end.

(* ------------------------------------------------------------------ *)
(** ** PipelineModel *)

Record Pipeline := mkPipeline {
  p_id : uuid;
  p_tenant_id : uuid;
  p_name : string;
  p_is_default : bool
}.

Record PipelineStage := mkPipelineStage {
  ps_id : uuid;
  ps_tenant_id : uuid;
  ps_pipeline_id : uuid;
  ps_name : string;
  ps_position : Z;
  ps_probability : Z
}.

(** The tables [pipelines] and [pipeline_stages], in storage order, and
    the source of [gen_random_uuid()]. *)
Record PipelineStore := mkPipelineStore {
  pipelines : list Pipeline;
  pipeline_stages : list PipelineStage;
  pl_next_id : uuid
}.

(** [{ tenant_id, name }], the bag of [create] and [createStage]. *)
Record NamedData := mkNamedData {
  nd_tenant_id : uuid;
  nd_name : string
}.

(** [json_build_object('id', ..., 'name', ..., 'position', ...,
    'probability', ...)] *)
Record StageView := mkStageView {
  sv_id : uuid;
  sv_name : string;
  sv_position : Z;
  sv_probability : Z
}.

(** [p.*] with the aggregated [stages]. *)
Record PipelineView := mkPipelineView {
  pv_pipeline : Pipeline;
  pv_stages : list StageView
}.

(** SQL [MAX]: NULL over no rows. *)
Definition sql_max (l : list Z) : option Z :=
  match l with
  | [] => None
  | x :: l' => Some (fold_left Z.max l' x)
  end.

Module PipelineModel.

(** [INSERT INTO pipelines (id, tenant_id, name, is_default)
    VALUES (gen_random_uuid(), $1, $2, false) RETURNING *] *)
Definition create (pipelineData : NamedData) (s : PipelineStore) : PipelineStore * Pipeline :=
  let row := mkPipeline (pl_next_id s) (nd_tenant_id pipelineData) (nd_name pipelineData)
                        false in
  (mkPipelineStore (pipelines s ++ [row]) (pipeline_stages s) (S (pl_next_id s)), row).

(** [SELECT COALESCE(MAX(position), 0) + 1 as next_position
    FROM pipeline_stages WHERE pipeline_id = $1] *)
Definition next_position (pipelineId : uuid) (s : PipelineStore) : Z :=
  dflt (sql_max (map ps_position
                     (filter (fun g => (ps_pipeline_id g =? pipelineId)%nat)
                             (pipeline_stages s))))
       0%Z + 1.

(** The position query followed by [INSERT INTO pipeline_stages (id,
    tenant_id, pipeline_id, name, position, probability) VALUES
    (gen_random_uuid(), $1, $2, $3, $4, $5) RETURNING *] with
    [[tenant_id, pipelineId, name, nextPosition, 0]]. *)
Definition createStage (pipelineId : uuid) (stageData : NamedData) (s : PipelineStore)
  : PipelineStore * PipelineStage :=
  let nextPosition := next_position pipelineId s in
  let row := mkPipelineStage (pl_next_id s) (nd_tenant_id stageData) pipelineId
                             (nd_name stageData) nextPosition 0 in
  (mkPipelineStore (pipelines s) (pipeline_stages s ++ [row]) (S (pl_next_id s)), row).

(** [json_agg(... ORDER BY ps.position) FILTER (WHERE ps.id IS NOT NULL)]
    over [LEFT JOIN pipeline_stages ps ON p.id = ps.pipeline_id] *)
Definition stages_of (p : Pipeline) (s : PipelineStore) : list StageView :=
  map (fun g => mkStageView (ps_id g) (ps_name g) (ps_position g) (ps_probability g))
      (Pg.sort_by (Pg.by_key Pg.ASC (fun g => Pg.KNum (ps_position g)))
                  (filter (fun g => (ps_pipeline_id g =? p_id p)%nat) (pipeline_stages s))).

(** [... WHERE p.id = $1 AND p.tenant_id = $2 GROUP BY p.id;
    rows[0] || null] *)
Definition findById (pipelineId tenantId : uuid) (s : PipelineStore) : option PipelineView :=
  option_map (fun p => mkPipelineView p (stages_of p s))
             (find (fun p => (p_id p =? pipelineId)%nat && (p_tenant_id p =? tenantId)%nat)
                   (pipelines s)).

End PipelineModel.

(** The names given to [createStage], one call after the other, for one
    pipeline. *)
Definition createStages (pipelineId tenantId : uuid) (names : list string) (s : PipelineStore)
  : PipelineStore :=
  fold_left (fun st name => fst (PipelineModel.createStage pipelineId
                                                           (mkNamedData tenantId name) st))
            names s.

(** A pipeline of tenant [1] without stages. *)
Definition sales_pipeline_store : PipelineStore :=
  mkPipelineStore [mkPipeline 80 1 "Sales" false] [] 200.

(* ------------------------------------------------------------------ *)
(** ** pipelineController *)

(** The statements of the pipeline handlers; the store may reject any of
    them. *)
Inductive PipelineStatement :=
| InsertPipeline | SelectPipeline | SelectNextPosition | InsertPipelineStage.

Module pipelineController.

(** [try { ... } catch (error) { sendError(res, 500, ...) }] around the
    calls of the handler; every call is a statement of its own, so a
    rejected statement leaves the store as the earlier ones made it. *)
Definition createPipeline (rejects : PipelineStatement -> bool) (user : AuthUser)
           (name : string) (s : PipelineStore) : PipelineStore * Response Pipeline :=
  if rejects InsertPipeline then (s, sendError 500 "Failed to create pipeline")
  else
    let (s', pipeline) := PipelineModel.create (mkNamedData (au_tenant_id user) name) s in
    (s', sendSuccess 201 pipeline "Pipeline created successfully").

Definition createStage (rejects : PipelineStatement -> bool) (user : AuthUser)
           (pipelineId : uuid) (name : string) (s : PipelineStore)
  : PipelineStore * Response PipelineStage :=
  let tenant_id := au_tenant_id user in
  if rejects SelectPipeline then (s, sendError 500 "Failed to create stage")
  else
    match PipelineModel.findById pipelineId tenant_id s with
    | None => (s, sendError 404 "Pipeline not found")
    | Some _ =>
        if rejects SelectNextPosition || rejects InsertPipelineStage
        then (s, sendError 500 "Failed to create stage")
        else
          let (s', stage) :=
            PipelineModel.createStage pipelineId (mkNamedData tenant_id name) s in
          (s', sendSuccess 201 stage "Stage created successfully")
    end.

End pipelineController.

(* ------------------------------------------------------------------ *)
(** * Properties *)

(** Tests on counts stay folded while a handler run is simplified. *)
Local Arguments Nat.ltb : simpl never.
Local Arguments Nat.eqb : simpl never.
Local Arguments Nat.leb : simpl never.

Lemma valid_tenant_has_rows (t : uuid) (l : list uuid) :
  In t l -> (List.length (filter (fun x => (x =? t)%nat) l) =? 0)%nat = false.
Proof.
  induction l as [|x l IH]; simpl; [intros []|].
  intros [H|H].
  - subst. rewrite Nat.eqb_refl. reflexivity.
  - destruct (x =? t)%nat; [reflexivity|]. exact (IH H).
Qed.

(** C2 (webhook ingestion atomicity), evaluated on the scenario of the
    specification with the activity-log INSERT rejected: the handler
    rolls back its own connection and answers 500, yet the contact and
    the lead written through [db.query] are in the store, and there is
    no activity-log row: a lead without its log entry and a contact
    created by a failed request are both observable. *)
Theorem webhook_rollback_keeps_contact_and_lead :
  let run := webhookController.handleLeadCaptured
               scenario_request (mkWorld empty_store None (fault_at InsertActivityLog)) in
  option_map status (response run) = Some 500
  /\ client_tx (fst run) = None
  /\ map c_email (contacts (after run)) = [Some "j@x.com"]
  /\ map l_contact_id (leads (after run)) = [Some 100]
  /\ map l_source (leads (after run)) = ["fairex"]
  /\ activity_log (after run) = [].
Proof. vm_compute. repeat split; reflexivity. Qed.

(** The same outcome on any store: for a visitor with a key whom nothing
    matches, a rejected activity-log INSERT is answered 500 and leaves
    the new contact and the new lead behind, without a log row. *)
Lemma webhook_log_failure_keeps_writes (s : Store) (req : WebhookBody) (v : Visitor) :
  In (w_tenant_id req) (tenants s) ->
  w_visitor req = Some v ->
  JS.truthy (v_email v) || JS.truthy (v_phone v) = true ->
  ContactModel.findByEmailOrPhone (w_tenant_id req) (v_email v) (v_phone v) s = None ->
  let run := webhookController.handleLeadCaptured
               req (mkWorld s None (fault_at InsertActivityLog)) in
  option_map status (response run) = Some 500
  /\ contacts (after run) = (contacts s ++ [webhook_contact (w_tenant_id req) v s])%list
  /\ (exists l, leads (after run) = (leads s ++ [l])%list
                /\ l_contact_id l = Some (next_id s))
  /\ activity_log (after run) = activity_log s.
Proof.
  intros Hten Hv Hkey Hfind run. subst run.
  unfold webhookController.handleLeadCaptured, webhookController.resolveContact,
    response, after.
  rewrite Hv. unfold_m.
  repeat (first [ rewrite (valid_tenant_has_rows _ _ Hten) | rewrite Hkey
                | rewrite Hfind | progress cbn ]).
  repeat split. eexists. split; reflexivity.
Qed.

(** C5 (partial-update safety), on the lead path: with an empty bag the
    SET list of [LeadModel.update] starts with a comma, the store rejects
    the statement whatever the lead and the tenant are, and
    [PATCH /leads/:id] with an empty body answers 500 although the lead
    exists. *)
Theorem lead_update_empty_bag_is_rejected :
  forall (leadId tenantId : uuid) (s : Store),
    LeadModel.update_query []
    = "UPDATE leads SET , updated_at = CURRENT_TIMESTAMP WHERE id = $1 AND tenant_id = $2 RETURNING *"
    /\ LeadModel.update leadId tenantId [] s = Thrown "syntax error in SET list"
    /\ response (leadsController.updateLead agent_one 10 [] (quiet leads_store))
       = Some (sendError 500 "Failed to update lead").
Proof.
  intros leadId tenantId s. repeat split; reflexivity.
Qed.

(** C8 (pagination consistency), evaluated on the lead list: tenant [1]
    has three matching leads, so with [limit = 20] the metadata should be
    [total = 3], [pages = 1]; page 2 is answered with success and an
    empty list, but with [total = 0] and [pages = 0]. *)
Theorem lead_list_past_last_page_reports_zero :
  List.length (filter (LeadModel.where_ 1 page_two leads_store) (leads leads_store)) = 3
  /\ Math_ceil_div 3 20 = Some 1%Z
  /\ option_map status (response (leadsController.getLeads agent_one page_two (quiet leads_store)))
     = Some 200
  /\ payload (leadsController.getLeads agent_one page_two (quiet leads_store))
     = Some (mkListing [] (mkPagination 2 20 0 (Some 0%Z))).
Proof. vm_compute. repeat split; reflexivity. Qed.

(** C1 (tenant isolation).  [LeadModel.getCompleteLeadData] takes no
    tenant: handed the id of a lead of tenant [2] it returns that row,
    where [findByIdWithDetails] under tenant [1] returns nothing.  The
    joins of the task list carry no tenant either: a user of tenant [1]
    who creates a task naming that lead reads its title back from
    [GET /tasks]. *)
Theorem reads_cross_the_tenant_boundary :
  let created := tasksController.createTask
                   agent_one (mkTaskData (Some 20) None None "follow up" None None)
                   (quiet leads_store) in
  let listed := tasksController.getTasks
                  agent_one (mkTaskFilters None None None None None None None)
                  (fst created) in
  option_map (fun r => l_tenant_id (cl_lead r)) (LeadModel.getCompleteLeadData 20 leads_store)
  = Some 2
  /\ LeadModel.findByIdWithDetails 20 1 leads_store = None
  /\ option_map status (response created) = Some 201
  /\ option_map status (response listed) = Some 200
  /\ option_map (fun l => map (fun r => d_lead_title (tr_display r)) (items l)) (payload listed)
     = Some [None; Some "confidential deal"; None].
Proof. vm_compute. repeat split; reflexivity. Qed.

(* ------------------------------------------------------------------ *)
(** ** A contact reference without a key *)




(** [POST /contacts], by contrast, has no such guard around the insert:
    a reference without a key (and without a company) is always stored
    as a new contact when the store accepts the statements. *)
Lemma post_contacts_keyless_creates (w : World) (user : AuthUser) (contactData : ContactData) :
  (forall st, rejects w st = false) ->
  cd_company_id contactData = None ->
  keyless (cd_email contactData) (cd_phone contactData) = true ->
  let run := contactsController.createContact user contactData w in
  option_map status (response run) = Some 201
  /\ exists c, contacts (after run) = (contacts (db w) ++ [c])%list
               /\ c_tenant_id c = au_tenant_id user
               /\ c_email c = None /\ c_phone c = None.
Proof.
  intros Hno Hco Hkey run. subst run.
  unfold keyless in Hkey. apply negb_true_iff in Hkey.
  unfold contactsController.createContact, response, after.
  rewrite Hco. unfold_m.
  repeat (first [ rewrite Hno | rewrite Hkey | progress cbn ]).
  split; [reflexivity|]. eexists. split; [reflexivity|].
  apply orb_false_iff in Hkey. destruct Hkey as [He Hp].
  unfold JS.or_null. rewrite He, Hp. repeat split; reflexivity.
Qed.

(* ------------------------------------------------------------------ *)
(** ** The ORDER BY clause *)

Lemma strip_sort_chars_only_sort_chars (s : string) :
  JS.forall_string JS.is_sort_char (JS.strip_sort_chars s) = true.
Proof.
  unfold JS.strip_sort_chars.
  induction s as [|a s IH]; simpl; [reflexivity|].
  destruct (JS.is_sort_char a) eqn:Ha; simpl; [rewrite Ha|]; exact IH.
Qed.




(* ------------------------------------------------------------------ *)
(** ** The window count *)




(** The ordering of the task list on the scenario of the specification:
    priorities low, urgent, normal, urgent with due times 3, 1, 2 and
    none list as urgent (due 1), urgent (no due time), normal, low. *)
Example task_list_order :
  let t (id : uuid) (priority : string) (due : option timestamp) :=
    mkTask id 1 None None None "t" due priority "open" id in
  map k_id (Pg.sort_by TaskModel.order
              [t 1 "low" (Some 3); t 2 "urgent" (Some 1); t 3 "normal" (Some 2);
               t 4 "urgent" None])
  = [2; 4; 3; 1].
Proof. vm_compute. reflexivity. Qed.


(* ------------------------------------------------------------------ *)
(** ** Contact deduplication *)






Lemma find_appended {A : Type} (p : A -> bool) (l : list A) (x : A) :
  find p l = None -> p x = true -> find p (l ++ [x]) = Some x.
Proof.
  intros Hl Hx. induction l as [|y l IH]; simpl in *.
  - rewrite Hx. reflexivity.
  - destruct (p y); [discriminate | exact (IH Hl)].
Qed.

(** [POST /contacts] twice with the same email: the first request stores
    the contact, the second is refused as a conflict and stores
    nothing. *)
Example post_contacts_twice_one_row :
  let data := mkContactData (Some "Ann") None (Some "a@x.com") None None None None None in
  let first := contactsController.createContact agent_one data (quiet empty_store) in
  let second := contactsController.createContact agent_one data (fst first) in
  option_map status (response first) = Some 201
  /\ response second
     = Some (mkResponse 422 false "Contact with this email or phone already exists"
                        (Some (contactsController.Conflict "email")))
  /\ map c_email (contacts (after second)) = [Some "a@x.com"].
Proof. vm_compute. repeat split; reflexivity. Qed.






(* ------------------------------------------------------------------ *)
(** ** The backfill of a matched contact *)

(** Whatever the store rejects, a webhook run that matched [existing]
    leaves the contact table as it was or backfilled in place. *)
Lemma webhook_contacts_when_matched (w : World) (req : WebhookBody) (v : Visitor)
      (existing : Contact) :
  w_visitor req = Some v ->
  ContactModel.findByEmailOrPhone (w_tenant_id req) (v_email v) (v_phone v) (db w)
  = Some existing ->
  contacts (after (webhookController.handleLeadCaptured req w)) = contacts (db w)
  \/ contacts (after (webhookController.handleLeadCaptured req w))
     = map (webhook_rewrite (w_tenant_id req) v existing (clock (db w))) (contacts (db w)).
Proof.
  intros Hv Hfind.
  unfold webhookController.handleLeadCaptured, webhookController.resolveContact, after.
  rewrite Hv. unfold_m.
  repeat (first [ rewrite Hfind | progress cbn | run_step' ]);
    try (left; reflexivity);
    right; unfold webhook_rewrite;
    match goal with H : (0 <? _)%nat = true |- _ => rewrite H end; reflexivity.
Qed.

Lemma unique_id_same_row (l : list Contact) (x y : Contact) :
  NoDup (map c_id l) -> In x l -> In y l -> c_id x = c_id y -> x = y.
Proof.
  induction l as [|z l IH]; simpl; [intros _ []|].
  intros Hnd Hx Hy Hid. inversion Hnd as [|? ? Hnotin Hnd']; subst.
  destruct Hx as [Hx|Hx], Hy as [Hy|Hy]; subst.
  - reflexivity.
  - exfalso. apply Hnotin. rewrite Hid. apply in_map. exact Hy.
  - exfalso. apply Hnotin. rewrite <- Hid. apply in_map. exact Hx.
  - exact (IH Hnd' Hx Hy Hid).
Qed.

Lemma backfilled_refl (v : Visitor) (now : timestamp) (c : Contact) : backfilled v now c c.
Proof. unfold backfilled. repeat split; try reflexivity; left; reflexivity. Qed.

(** The rewrite of the matched row is a backfill of that row. *)
Lemma update_of_existing_is_backfill (v : Visitor) (now : timestamp) (ex : Contact) :
  backfilled v now ex
             (ContactModel.apply_update (webhookController.updateData v ex) now ex).
Proof.
  unfold backfilled, ContactModel.apply_update, webhookController.updateData. simpl.
  repeat split; try reflexivity.
  - destruct (JS.truthy (v_first_name v)) eqn:Hv; simpl; [|left; reflexivity].
    destruct (JS.truthy (c_first_name ex)) eqn:Hc; simpl; [left; reflexivity|].
    destruct (v_first_name v) as [n|]; [|discriminate Hv]. simpl.
    right. split; reflexivity.
  - destruct (JS.truthy (v_last_name v)) eqn:Hv; simpl; [|left; reflexivity].
    destruct (JS.truthy (c_last_name ex)) eqn:Hc; simpl; [left; reflexivity|].
    destruct (v_last_name v) as [n|]; [|discriminate Hv]. simpl.
    right. split; reflexivity.
  - right. reflexivity.
Qed.

Lemma Forall2_map_of {A : Type} (R : A -> A -> Prop) (g : A -> A) (l : list A) :
  (forall x, In x l -> R x (g x)) -> Forall2 R l (map g l).
Proof.
  induction l as [|x l IH]; simpl; intros H; constructor.
  - apply H. left. reflexivity.
  - apply IH. intros y Hy. apply H. right. exact Hy.
Qed.

(** C4 (dedup backfill frame condition): when the webhook matches the
    visitor to a stored contact, the contact table keeps its rows, in
    place, and each row is related to its former state by [backfilled]:
    a first or last name changes only from empty to the name of the
    visitor, the update stamp is refreshed from the clock, and every
    other column, the external visitor id among them, keeps its value.
    So a populated field is never overwritten by an incoming value.  This
    holds whatever statement the store rejects on the way. *)
Theorem backfill_fills_only_empty_names :
  forall (w : World) (req : WebhookBody) (v : Visitor) (existing : Contact),
    NoDup (map c_id (contacts (db w))) ->
    w_visitor req = Some v ->
    ContactModel.findByEmailOrPhone (w_tenant_id req) (v_email v) (v_phone v) (db w)
    = Some existing ->
    Forall2 (backfilled v (clock (db w)))
            (contacts (db w))
            (contacts (after (webhookController.handleLeadCaptured req w)))
    /\ Forall2 (fun before after =>
                  (JS.truthy (c_first_name before) = true ->
                   c_first_name after = c_first_name before)
                  /\ (JS.truthy (c_last_name before) = true ->
                      c_last_name after = c_last_name before)
                  /\ c_kf_visitor_id after = c_kf_visitor_id before)
               (contacts (db w))
               (contacts (after (webhookController.handleLeadCaptured req w))).
Proof.
  intros w req v existing Hnd Hv Hfind.
  assert (Hmain : Forall2 (backfilled v (clock (db w)))
                          (contacts (db w))
                          (contacts (after (webhookController.handleLeadCaptured req w)))).
  { destruct (webhook_contacts_when_matched w req v existing Hv Hfind) as [H|H]; rewrite H.
    - rewrite <- (map_id (contacts (db w))) at 2.
      apply Forall2_map_of. intros x _. apply backfilled_refl.
    - apply Forall2_map_of. intros x Hx. unfold webhook_rewrite.
      destruct (0 <? _)%nat; simpl; [|apply backfilled_refl].
      destruct (ContactModel.targets (c_id existing) (w_tenant_id req) x) eqn:Ht;
        [|apply backfilled_refl].
      unfold ContactModel.targets in Ht. apply andb_true_iff in Ht. destruct Ht as [Hid _].
      apply Nat.eqb_eq in Hid.
      assert (Hex : In existing (contacts (db w)))
        by (unfold ContactModel.findByEmailOrPhone in Hfind;
            exact (proj1 (find_some _ _ Hfind))).
      rewrite (unique_id_same_row _ _ _ Hnd Hx Hex Hid).
      apply update_of_existing_is_backfill. }
  split; [exact Hmain|].
  eapply Forall2_impl; [|exact Hmain].
  intros before after' H. unfold backfilled in H.
  destruct H as (_ & _ & _ & _ & _ & _ & Hkf & _ & _ & Hfn & Hln & _).
  repeat split.
  - intros Hp. destruct Hfn as [Hfn|[Hfn _]]; [exact Hfn|]. rewrite Hp in Hfn. discriminate.
  - intros Hp. destruct Hln as [Hln|[Hln _]]; [exact Hln|]. rewrite Hp in Hln. discriminate.
  - exact Hkf.
Qed.

(** C4 at a returning visitor: the stored contact has a last name and a
    visitor id and no first name; the visitor brings all three. *)
Lemma backfill_witness :
  Forall2 (backfilled (mkVisitor (Some "Ann") (Some "Other") (Some "a@x.com") None
                                 (Some "kf-9") None) 50)
          (contacts half_named_store)
          (contacts (after (webhookController.handleLeadCaptured
                              returning_visitor (quiet half_named_store)))).
Proof.
  refine (proj1 (backfill_fills_only_empty_names
                   (quiet half_named_store) returning_visitor
                   (mkVisitor (Some "Ann") (Some "Other") (Some "a@x.com") None
                              (Some "kf-9") None)
                   (mkContact 7 1 None (Some "Berg") (Some "a@x.com") (Some "555") None None
                              (Some "kf-1") "manual" 1 1)
                   _ eq_refl eq_refl)).
  simpl. repeat constructor. intros [].
Defined.

(** What that run stores: the first name is filled, the last name and
    the visitor id are kept. *)
Example backfill_example :
  map (fun c => (c_first_name c, c_last_name c, c_kf_visitor_id c, c_updated_at c))
      (contacts (after (webhookController.handleLeadCaptured
                          returning_visitor (quiet half_named_store))))
  = [(Some "Ann", Some "Berg", Some "kf-1", 50)].
Proof. vm_compute. reflexivity. Qed.

(* ------------------------------------------------------------------ *)
(** ** Tags *)



Lemma same_link_spec (leadId tagId : uuid) (p : uuid * uuid) :
  TagModel.same_link leadId tagId p = true <-> p = (leadId, tagId).
Proof.
  unfold TagModel.same_link. destruct p as [a b]. simpl.
  rewrite andb_true_iff, !Nat.eqb_eq. split.
  - intros [Ha Hb]. subst. reflexivity.
  - intros H. inversion H. split; reflexivity.
Qed.


Lemma NoDup_appended {A : Type} (l : list A) (x : A) :
  NoDup l -> ~ In x l -> NoDup (l ++ [x]).
Proof.
  induction l as [|y l IH]; simpl; intros Hnd Hx.
  - constructor; [intros []|constructor].
  - inversion Hnd as [|? ? Hy Hnd']; subst. constructor.
    + intros Hin. apply in_app_or in Hin. destruct Hin as [Hin|[Hin|[]]].
      * exact (Hy Hin).
      * apply Hx. left. symmetry. exact Hin.
    + apply IH; [exact Hnd'|]. intros Hin. apply Hx. right. exact Hin.
Qed.



(** [removeFromLead] names the lead by id alone, but resolves the tag
    inside the caller's tenant: a link it deletes is a link of the given
    lead to a tag of that tenant with the given name. *)
Lemma removeFromLead_stays_in_tenant (leadId : uuid) (tagName : string) (tenantId : uuid)
      (s s' : Store) (removed : bool) (p : uuid * uuid) :
  TagModel.removeFromLead leadId tagName tenantId s = Returned (s', removed) ->
  In p (lead_tags s) ->
  ~ In p (lead_tags s') ->
  fst p = leadId
  /\ exists t, In t (tags s) /\ t_tenant_id t = tenantId /\ t_name t = tagName
               /\ snd p = t_id t.
Proof.
  unfold TagModel.removeFromLead.
  destruct (filter (TagModel.conflicts tenantId tagName) (tags s)) as [|t [|t' rest]] eqn:Hf;
    intros H Hin Hout; inversion H; subst; clear H.
  - contradiction.
  - simpl in Hout.
    destruct (TagModel.same_link leadId (t_id t) p) eqn:Hp.
    + apply same_link_spec in Hp. subst p. simpl. split; [reflexivity|].
      assert (Ht : In t (filter (TagModel.conflicts tenantId tagName) (tags s)))
        by (rewrite Hf; left; reflexivity).
      apply filter_In in Ht. destruct Ht as [Ht Hc].
      unfold TagModel.conflicts in Hc. apply andb_true_iff in Hc. destruct Hc as [Hc1 Hc2].
      apply Nat.eqb_eq in Hc1. apply String.eqb_eq in Hc2.
      exists t. repeat split; assumption.
    + exfalso. apply Hout. apply filter_In. split; [exact Hin|]. rewrite Hp. reflexivity.
Qed.

Local Arguments TagModel.createOrGet : simpl never.
Local Arguments TagModel.linkToLead : simpl never.
Local Arguments LeadModel.exists_ : simpl never.




(** What those two requests leave in the join relation. *)
Example tag_link_example :
  lead_tags (after (leadsController.addTagsToLead
                      agent_one 10 ["hot "]
                      (fst (leadsController.addTagsToLead agent_one 10 [" hot"]
                                                          (quiet tagged_store)))))
  = [(10, 61); (10, 60)].
Proof. vm_compute. reflexivity. Qed.

(* ------------------------------------------------------------------ *)
(** ** Updates with fixed COALESCE assignments *)

(** With an empty bag the contact and company updates rewrite a row to
    itself, the update stamp apart. *)
Lemma contact_update_empty_bag_keeps_row (now : timestamp) (c : Contact) :
  ContactModel.apply_update emptyContactData now c
  = mkContact (c_id c) (c_tenant_id c) (c_first_name c) (c_last_name c) (c_email c)
              (c_phone c) (c_dob c) (c_company_id c) (c_kf_visitor_id c) (c_source c)
              (c_created_at c) now.
Proof. reflexivity. Qed.

Lemma company_update_empty_bag_keeps_row (now : timestamp) (c : Company) :
  CompanyModel.apply_update (mkCompanyData None None None None) now c
  = mkCompany (co_id c) (co_tenant_id c) (co_name c) (co_website c) (co_phone c)
              (co_address c) (co_created_at c) now.
Proof. reflexivity. Qed.

(** A bag that names some columns leaves the others of a lead as they
    were: here only the status and the score are sent. *)
Example lead_update_partial_bag :
  option_map (fun r => option_map (fun l => (l_status l, l_score l, l_title l, l_updated_at l))
                                  (snd r))
             (returned (LeadModel.update 10 1 [("status", VStr "working"); ("score", VNum 40)]
                                         leads_store))
  = Some (Some ("working", 40%Z, Some "first", 50)).
Proof. vm_compute. reflexivity. Qed.

(* ------------------------------------------------------------------ *)
(** * Further properties of the access modules *)

(** ** Deleting and finding rows *)

Lemma filter_negb_idempotent {A : Type} (p : A -> bool) (l : list A) :
  filter (fun x => negb (p x)) (filter (fun x => negb (p x)) l)
  = filter (fun x => negb (p x)) l
  /\ existsb p (filter (fun x => negb (p x)) l) = false.
Proof.
  induction l as [|x l [IH1 IH2]]; simpl; [split; reflexivity|].
  destruct (p x) eqn:Hp; simpl; [split; assumption|].
  rewrite Hp. simpl. rewrite IH1, IH2. split; reflexivity.
Qed.

(** [LeadModel.delete] removes exactly the leads with the given id in the
    given tenant and says whether there was one; afterwards no such lead
    exists, and deleting again removes nothing and returns false. *)
Theorem lead_delete_is_scoped_and_idempotent :
  forall (leadId tenantId : uuid) (s : Store),
    let r := LeadModel.delete leadId tenantId s in
    snd r = LeadModel.exists_ leadId tenantId s
    /\ LeadModel.exists_ leadId tenantId (fst r) = false
    /\ (forall l, In l (leads (fst r)) <->
                  In l (leads s) /\ ~ (l_id l = leadId /\ l_tenant_id l = tenantId))
    /\ LeadModel.delete leadId tenantId (fst r) = (fst r, false)
    /\ contacts (fst r) = contacts s
    /\ lead_tags (fst r) = lead_tags s.
Proof.
  intros leadId tenantId s r. subst r. unfold LeadModel.delete, LeadModel.exists_.
  set (hit := fun l : Lead => (l_id l =? leadId)%nat && (l_tenant_id l =? tenantId)%nat).
  cbn [fst snd with_leads leads contacts lead_tags].
  destruct (filter_negb_idempotent hit (leads s)) as [H1 H2].
  split; [reflexivity|]. split; [exact H2|]. split.
  - intros l. rewrite filter_In. unfold hit.
    rewrite negb_true_iff, andb_false_iff, !Nat.eqb_neq. split.
    + intros [Hin Hn]. split; [exact Hin|]. intros [Ha Hb]. destruct Hn; contradiction.
    + intros [Hin Hn]. split; [exact Hin|].
      destruct (Nat.eq_dec (l_id l) leadId) as [Ha|Ha]; [|left; exact Ha].
      right. intros Hb. apply Hn. split; assumption.
  - split; [|split; reflexivity].
    subst hit. cbv beta in H1, H2 |- *. rewrite H1, H2. reflexivity.
Qed.

Lemma find_none_when_all_false {A : Type} (p : A -> bool) (l : list A) :
  (forall x, In x l -> p x = false) -> find p l = None.
Proof.
  induction l as [|x l IH]; simpl; intros H; [reflexivity|].
  rewrite (H x (or_introl eq_refl)). apply IH. intros y Hy. apply H. right. exact Hy.
Qed.

Lemma filter_keeps_when_all_true {A : Type} (p : A -> bool) (l : list A) :
  (forall x, In x l -> p x = true) -> filter p l = l.
Proof.
  induction l as [|x l IH]; simpl; intros H; [reflexivity|].
  rewrite (H x (or_introl eq_refl)). f_equal. apply IH. intros y Hy. apply H. right. exact Hy.
Qed.

Lemma find_none_appended {A : Type} (p : A -> bool) (l : list A) (x : A) :
  find p l = None -> p x = false -> find p (l ++ [x]) = None.
Proof.
  induction l as [|y l IH]; simpl; intros Hl Hx; [rewrite Hx; reflexivity|].
  destruct (p y); [discriminate|]. apply IH; assumption.
Qed.

(** A contact that [ContactModel.create] stored is found again by its id
    under its tenant and under no other tenant, and deleting it restores
    the contact table, provided the id drawn was not in use. *)
Theorem contact_create_find_delete :
  forall (tenantId : uuid) (contactData : ContactData) (s : Store),
    (forall c, In c (contacts s) -> c_id c <> next_id s) ->
    let s1 := fst (ContactModel.create tenantId contactData s) in
    let row := snd (ContactModel.create tenantId contactData s) in
    ContactModel.findById (c_id row) tenantId s1 = Some row
    /\ (forall other, other <> tenantId -> ContactModel.findById (c_id row) other s1 = None)
    /\ snd (ContactModel.delete (c_id row) tenantId s1) = true
    /\ contacts (fst (ContactModel.delete (c_id row) tenantId s1)) = contacts s.
Proof.
  intros tenantId contactData s Hfresh s1 row. subst s1 row.
  unfold ContactModel.create, ContactModel.findById, ContactModel.delete.
  cbn [fst snd with_contacts bump_id contacts c_id next_id].
  assert (Hfind : forall t, find (fun c => (c_id c =? next_id s)%nat && (c_tenant_id c =? t)%nat)
                                 (contacts s) = None).
  { intros t. apply find_none_when_all_false. intros c Hc.
    apply andb_false_iff. left. apply Nat.eqb_neq. exact (Hfresh c Hc). }
  repeat split.
  - apply find_appended; [apply Hfind|]. cbn [c_id c_tenant_id].
    rewrite !Nat.eqb_refl. reflexivity.
  - intros other Hother. apply find_none_appended; [apply Hfind|].
    cbn [c_id c_tenant_id]. apply andb_false_iff. right. apply Nat.eqb_neq.
    intros E. apply Hother. symmetry. exact E.
  - rewrite existsb_app. apply orb_true_iff. right. unfold ContactModel.targets.
    cbn [existsb c_id c_tenant_id]. rewrite !Nat.eqb_refl. reflexivity.
  - rewrite filter_app. unfold ContactModel.targets at 2.
    cbn [filter c_id c_tenant_id]. rewrite !Nat.eqb_refl. cbn [andb negb].
    rewrite app_nil_r. apply filter_keeps_when_all_true. intros c Hc.
    unfold ContactModel.targets. apply negb_true_iff, andb_false_iff. left.
    apply Nat.eqb_neq. exact (Hfresh c Hc).
Qed.

(** The round trip at the store with one contact on the office line. *)
Lemma contact_create_find_delete_witness :
  contacts (fst (ContactModel.delete
                   (next_id office_line_store) 1
                   (fst (ContactModel.create 1 emptyContactData office_line_store))))
  = contacts office_line_store.
Proof.
  refine (proj2 (proj2 (proj2 (contact_create_find_delete 1 emptyContactData office_line_store _)))).
  simpl. intros c [Hc|[]]. subst c. simpl. discriminate.
Defined.

(** ** Updates *)

(** [ContactModel.update], whatever the bag holds, rewrites rows in place:
    every row keeps its id, tenant, visitor id, source and creation stamp,
    a row that is not the target (same id, same tenant) is left as it
    was, and a row is returned exactly when a target exists. *)
Theorem contact_update_keeps_identity_and_other_rows :
  forall (contactId tenantId : uuid) (contactData : ContactData) (s : Store),
    let r := ContactModel.update contactId tenantId contactData s in
    Forall2 (fun before after =>
               c_id after = c_id before
               /\ c_tenant_id after = c_tenant_id before
               /\ c_kf_visitor_id after = c_kf_visitor_id before
               /\ c_source after = c_source before
               /\ c_created_at after = c_created_at before
               /\ (ContactModel.targets contactId tenantId before = false -> after = before))
            (contacts s) (contacts (fst r))
    /\ (present (snd r) = existsb (ContactModel.targets contactId tenantId) (contacts s))
    /\ leads (fst r) = leads s
    /\ companies (fst r) = companies s.
Proof.
  intros contactId tenantId contactData s r. subst r. unfold ContactModel.update.
  cbn [fst snd with_contacts contacts leads companies].
  split; [|split; [|split; reflexivity]].
  - induction (contacts s) as [|c l IH]; [constructor|].
    cbn [map]. constructor; [|exact IH].
    destruct (ContactModel.targets contactId tenantId c) eqn:Ht.
    + cbn. repeat split; try reflexivity. discriminate.
    + repeat split; reflexivity.
  - induction (contacts s) as [|c l IH]; [reflexivity|].
    cbn [map find existsb].
    destruct (ContactModel.targets contactId tenantId c) eqn:Ht.
    + unfold ContactModel.targets in *. cbn [c_id c_tenant_id ContactModel.apply_update].
      rewrite Ht. reflexivity.
    + rewrite Ht. exact IH.
Qed.





Lemma move_rows (leadId tenantId target : uuid) (now : timestamp) (params : list value)
      (ls : list Lead) :
  nth_error params 2 = Some (VId target) ->
  target <> tenantId ->
  let hit l := (l_id l =? leadId)%nat && (l_tenant_id l =? tenantId)%nat in
  exists tbl ret,
    update_rows hit
      (apply_assignments [("tenant_id", Sql.Param 3); ("updated_at", Sql.CurrentTimestamp)]
                         params now) ls = Some (tbl, ret)
    /\ existsb hit tbl = false
    /\ (existsb hit ls = true ->
        existsb (fun l => (l_id l =? leadId)%nat && (l_tenant_id l =? target)%nat) tbl = true)
    /\ List.length tbl = List.length ls.
Proof.
  intros Hp Hne hit. induction ls as [|l ls (tbl & ret & H1 & H2 & H3 & H4)].
  - exists [], []. repeat split; try reflexivity. discriminate.
  - cbn [update_rows]. rewrite H1. destruct (hit l) eqn:Hh.
    + cbn [apply_assignments rhs_value Nat.sub]. rewrite Hp.
      cbn. eexists. eexists. split; [reflexivity|].
      unfold hit in Hh. apply andb_true_iff in Hh. destruct Hh as [Hid Ht].
      cbn [existsb l_id l_tenant_id List.length].
      split; [|split].
      * fold hit. rewrite H2. rewrite orb_false_r. apply andb_false_iff. right.
        apply Nat.eqb_neq. exact Hne.
      * intros _. rewrite Hid, Nat.eqb_refl. reflexivity.
      * rewrite H4. reflexivity.
    + eexists. eexists. split; [reflexivity|].
      cbn [existsb List.length]. rewrite Hh, H2, H4. repeat split.
      intros H. apply H3 in H. rewrite H. apply orb_true_r.
Qed.

(** [updateLead] hands the request body to [LeadModel.update] as it is,
    and every key of the body becomes an assignment: a body
    [{ tenant_id: T }] sent for a lead of the caller's tenant is answered
    200 and leaves the lead in tenant [T], out of the caller's reach. *)
Theorem lead_update_body_can_reassign_the_tenant :
  forall (w : World) (user : AuthUser) (id target : uuid),
    rejects w SelectLead = false ->
    rejects w UpdateLead = false ->
    LeadModel.exists_ id (au_tenant_id user) (db w) = true ->
    In target (tenants (db w)) ->
    target <> au_tenant_id user ->
    let run := leadsController.updateLead user id [("tenant_id", VId target)] w in
    option_map status (response run) = Some 200
    /\ LeadModel.exists_ id (au_tenant_id user) (after run) = false
    /\ LeadModel.exists_ id target (after run) = true
    /\ List.length (leads (after run)) = List.length (leads (db w)).
Proof.
  intros w user id target Hs Hu Hex _ Hne run. subst run.
  unfold leadsController.updateLead, response, after. unfold_m.
  rewrite Hs. cbn [fst snd db rejects client_tx]. rewrite Hex. cbn [negb].
  cbn [leadsController.owner_of find fst String.eqb Ascii.eqb Bool.eqb].
  cbn [fst snd db rejects client_tx negb]. rewrite Hu.
  unfold LeadModel.update, exec_update_leads.
  replace (Sql.set_list_of (LeadModel.update_query [("tenant_id", VId target)]))
    with (Some "tenant_id = $3, updated_at = CURRENT_TIMESTAMP") by (vm_compute; reflexivity).
  replace (Sql.parse_set_list "tenant_id = $3, updated_at = CURRENT_TIMESTAMP")
    with (Some [("tenant_id", Sql.Param 3); ("updated_at", Sql.CurrentTimestamp)])
    by (vm_compute; reflexivity).
  cbn [map fst snd distinct existsb String.eqb Ascii.eqb Bool.eqb negb andb orb app nth_error].
  destruct (move_rows id (au_tenant_id user) target (clock (db w))
                      [VId id; VId (au_tenant_id user); VId target] (leads (db w))
                      eq_refl Hne) as (tbl & ret & H1 & H2 & H3 & H4).
  cbv zeta in H1. rewrite H1.
  cbn [fst snd db returned option_map status sendSuccess with_leads leads].
  unfold LeadModel.exists_ in *. cbn [leads with_leads].
  repeat split; [exact H2 | exact (H3 Hex) | exact H4].
Qed.

(** A user of tenant [1] moves lead [10] to tenant [2]. *)
Lemma lead_update_body_can_reassign_the_tenant_witness :
  map l_tenant_id
      (leads (after (leadsController.updateLead agent_one 10 [("tenant_id", VId 2)]
                                                (quiet leads_store))))
  = [2; 1; 1; 2]
  /\ LeadModel.exists_ 10 1
       (after (leadsController.updateLead agent_one 10 [("tenant_id", VId 2)]
                                          (quiet leads_store))) = false.
Proof.
  split; [vm_compute; reflexivity|].
  refine (proj1 (proj2 (lead_update_body_can_reassign_the_tenant
                          (quiet leads_store) agent_one 10 2 eq_refl eq_refl eq_refl _ _))).
  - simpl. right. left. reflexivity.
  - simpl. discriminate.
Defined.

(** ** Tags *)

(** Removing ["hot"] from lead [10] as tenant [1] deletes the link to that
    tenant's tag and keeps the link to the tag of the same name that
    tenant [2] owns. *)
Lemma removeFromLead_stays_in_tenant_witness :
  TagModel.removeFromLead 10 "hot" 1 shared_name_store
  = Returned (with_lead_tags shared_name_store [(10, 70)], true)
  /\ exists t, In t (tags shared_name_store) /\ t_tenant_id t = 1 /\ t_name t = "hot"
               /\ 60 = t_id t.
Proof.
  split; [reflexivity|].
  refine (proj2 (removeFromLead_stays_in_tenant
                   10 "hot" 1 shared_name_store
                   (with_lead_tags shared_name_store [(10, 70)]) true (10, 60) _ _ _)).
  - reflexivity.
  - simpl. left. reflexivity.
  - simpl. intros [H|[]]. discriminate.
Defined.

(** [POST /contacts] with an empty body, on a store without rows. *)
Lemma post_contacts_keyless_creates_witness :
  option_map status
    (response (contactsController.createContact agent_one emptyContactData (quiet empty_store)))
  = Some 201.
Proof.
  refine (proj1 (post_contacts_keyless_creates (quiet empty_store) agent_one emptyContactData
                                               _ _ _)); reflexivity.
Defined.








(* ------------------------------------------------------------------ *)
(** * Lists and pages *)

(** [pagination.pages] is the least number of pages of [limit] rows that
    hold [total] rows: for a positive limit (20 when the request gives
    none) and a total that is not negative, [pages * limit] covers the
    total and [(pages - 1) * limit] does not. *)
Theorem pages_is_the_least_cover :
  forall (page limit : option Z) (totalCount : Z),
    (0 <= totalCount)%Z ->
    (0 < dflt limit 20)%Z ->
    exists p,
      pg_pages (paginate page limit totalCount) = Some p
      /\ (totalCount <= p * dflt limit 20)%Z
      /\ ((p - 1) * dflt limit 20 < totalCount)%Z.
Proof.
  intros page limit totalCount Ht Hl. unfold paginate, Math_ceil_div. cbn [pg_pages].
  set (l := dflt limit 20%Z) in *.
  destruct (Z.eqb_spec l 0) as [E|E]; [lia|].
  eexists. split; [reflexivity|].
  pose proof (Z.div_mod (- totalCount) l E) as Hdm.
  pose proof (Z.mod_pos_bound (- totalCount) l Hl) as Hb.
  split; nia.
Qed.

(** 45 rows at the default limit make three pages. *)
Lemma pages_is_the_least_cover_witness :
  exists p, pg_pages (paginate None None 45) = Some p
            /\ (45 <= p * 20)%Z /\ ((p - 1) * 20 < 45)%Z.
Proof. apply (pages_is_the_least_cover None None 45); simpl; lia. Defined.

Lemma insert_by_In {R : Type} (leb : R -> R -> bool) (x y : R) (l : list R) :
  In y (Pg.insert_by leb x l) <-> y = x \/ In y l.
Proof.
  induction l as [|z l IH]; simpl.
  - split; intros [H|H]; auto.
  - destruct (leb x z); simpl; [split; intros [H|H]; auto|].
    rewrite IH. split; intros H; intuition.
Qed.


Lemma strip_window {R : Type} (sorted : list R) (limit offset : nat) :
  Pg.strip_count (Pg.window_page sorted limit offset) = firstn limit (skipn offset sorted).
Proof.
  unfold Pg.strip_count, Pg.window_page. rewrite map_map. apply map_id.
Qed.

Lemma In_firstn_skipn {R : Type} (l : list R) (limit offset : nat) (x : R) :
  In x (firstn limit (skipn offset l)) -> In x l.
Proof.
  intros H.
  assert (Hf : forall n (k : list R), In x (firstn n k) -> In x k).
  { induction n as [|n IHn]; intros k Hk; [destruct Hk|].
    destruct k as [|y k]; [destruct Hk|]. destruct Hk as [Hk|Hk]; [left; exact Hk|].
    right. apply IHn. exact Hk. }
  apply Hf in H. revert l H.
  induction offset as [|n IH]; intros l H; [exact H|].
  destruct l as [|y l]; [exact H|]. right. apply IH. exact H.
Qed.




(** ** Order of the lists *)

Section Sorting.

Context {R : Type} (leb : R -> R -> bool).
Hypothesis leb_total : forall x y, leb x y = true \/ leb y x = true.
Hypothesis leb_trans : forall x y z, leb x y = true -> leb y z = true -> leb x z = true.

Lemma insert_by_sorted (x : R) (l : list R) :
  StronglySorted (fun a b => leb a b = true) l ->
  StronglySorted (fun a b => leb a b = true) (Pg.insert_by leb x l).
Proof.
  induction l as [|y l IH]; intros Hs; cbn [Pg.insert_by].
  - constructor; constructor.
  - inversion Hs as [|? ? Hs' Hy]; subst.
    destruct (leb x y) eqn:Hxy.
    + constructor; [exact Hs|]. constructor; [exact Hxy|].
      eapply Forall_impl; [|exact Hy]. cbv beta. intros z Hz. exact (leb_trans _ _ _ Hxy Hz).
    + constructor; [exact (IH Hs')|].
      apply Forall_forall. intros z Hz. apply insert_by_In in Hz. destruct Hz as [Hz|Hz].
      * subst z. destruct (leb_total x y) as [H|H]; [congruence | exact H].
      * rewrite Forall_forall in Hy. exact (Hy z Hz).
Qed.

Lemma sort_by_sorted (l : list R) :
  StronglySorted (fun a b => leb a b = true) (Pg.sort_by leb l).
Proof.
  unfold Pg.sort_by. induction l as [|x l IH]; cbn [fold_right]; [constructor|].
  apply insert_by_sorted. exact IH.
Qed.

End Sorting.

Lemma sorted_skipn {R : Type} (P : R -> R -> Prop) (l : list R) (n : nat) :
  StronglySorted P l -> StronglySorted P (skipn n l).
Proof.
  revert l. induction n as [|n IH]; intros l Hs; [exact Hs|].
  destruct l as [|x l]; [exact Hs|]. inversion Hs; subst. apply IH. assumption.
Qed.

Lemma sorted_firstn {R : Type} (P : R -> R -> Prop) (l : list R) (n : nat) :
  StronglySorted P l -> StronglySorted P (firstn n l).
Proof.
  revert l. induction n as [|n IH]; intros l Hs; [constructor|].
  destruct l as [|x l]; [constructor|]. inversion Hs as [|? ? Hs' Hx]; subst.
  cbn [firstn]. constructor; [apply IH; exact Hs'|].
  apply Forall_forall. intros y Hy. rewrite Forall_forall in Hx. apply Hx.
  apply (In_firstn_skipn l n 0). exact Hy.
Qed.

Lemma sorted_map {R S : Type} (P : R -> R -> Prop) (Q : S -> S -> Prop) (f : R -> S)
      (l : list R) :
  (forall a b, P a b -> Q (f a) (f b)) ->
  StronglySorted P l -> StronglySorted Q (map f l).
Proof.
  intros Hf. induction 1 as [|x l Hs IH Hx]; cbn [map]; constructor; [exact IH|].
  apply Forall_map. eapply Forall_impl; [|exact Hx]. cbv beta. intros y. apply Hf.
Qed.

(** The interaction list comes newest first: on every page, a row never
    stands before a row that occurred later. *)
Theorem interaction_list_is_newest_first :
  forall (tenantId : uuid) (filters : InteractionFilters) (s : Store)
         (rows : list InteractionRow) (total : Z),
    InteractionModel.getInteractionsWithFilters tenantId filters s = Returned (rows, total) ->
    StronglySorted (fun a b => i_occurred_at (ir_interaction b)
                               <= i_occurred_at (ir_interaction a)) rows.
Proof.
  intros tenantId filters s rows total. unfold InteractionModel.getInteractionsWithFilters.
  destruct (Pg.limit_offset _ _) as [[lim off]|]; [|discriminate].
  intros H. inversion H; subst; clear H. rewrite strip_window.
  eapply sorted_map; [|apply sorted_firstn, sorted_skipn, sort_by_sorted].
  - cbv beta. intros a b Hab.
    cbn [InteractionModel.interaction_row ir_interaction].
    unfold Pg.by_key, nat_key, Pg.key_leb in Hab. apply Z.leb_le in Hab. lia.
  - intros x y. unfold Pg.by_key, nat_key, Pg.key_leb.
    destruct (Z.leb_spec (Z.of_nat (i_occurred_at y)) (Z.of_nat (i_occurred_at x)));
      [left; reflexivity|right; apply Z.leb_le; lia].
  - intros x y z. unfold Pg.by_key, nat_key, Pg.key_leb. rewrite !Z.leb_le. lia.
Qed.

(** The two interactions of tenant [1], read without filters. *)
Lemma interaction_list_is_newest_first_witness :
  exists rows total,
    InteractionModel.getInteractionsWithFilters
      1 (mkInteractionFilters None None None None None None None None) leads_store
    = Returned (rows, total)
    /\ map (fun r => i_occurred_at (ir_interaction r)) rows = [200; 100]
    /\ StronglySorted (fun a b => i_occurred_at (ir_interaction b)
                                  <= i_occurred_at (ir_interaction a)) rows.
Proof.
  eexists. eexists. split; [vm_compute; reflexivity|]. split; [reflexivity|].
  apply (interaction_list_is_newest_first
           1 (mkInteractionFilters None None None None None None None None) leads_store _ 2%Z).
  vm_compute. reflexivity.
Defined.

Lemma rank_code_spec (t : Task) :
  (1 <= rank_code t <= 5)%Z
  /\ TaskModel.priority_rank t
     = (if (rank_code t =? 5)%Z then Pg.KNull else Pg.KNum (rank_code t))
  /\ (rank_code t = 1%Z <-> k_priority t = "urgent").
Proof.
  unfold rank_code, TaskModel.priority_rank.
  destruct (String.eqb_spec (k_priority t) "urgent") as [E1|E1];
    [split; [lia|split; [reflexivity|split; auto]]|].
  destruct (k_priority t =? "high"); [split; [lia|split; [reflexivity|split; [lia|contradiction]]]|].
  destruct (k_priority t =? "normal");
    [split; [lia|split; [reflexivity|split; [lia|contradiction]]]|].
  destruct (k_priority t =? "low");
    [split; [lia|split; [reflexivity|split; [lia|contradiction]]]|].
  split; [lia|split; [reflexivity|split; [lia|contradiction]]].
Qed.

Lemma rank_lt_spec (x y : Task) :
  key_lt (TaskModel.priority_rank x) (TaskModel.priority_rank y)
  = (rank_code x <? rank_code y)%Z.
Proof.
  destruct (rank_code_spec x) as (Hx & Ex & _). destruct (rank_code_spec y) as (Hy & Ey & _).
  rewrite Ex, Ey. unfold key_lt, Pg.key_leb.
  destruct (Z.eqb_spec (rank_code x) 5); destruct (Z.eqb_spec (rank_code y) 5);
    destruct (Z.ltb_spec (rank_code x) (rank_code y)); try lia; try reflexivity;
    cbn [negb]; try (apply negb_true_iff, Z.leb_gt; lia);
    try (apply negb_false_iff, Z.leb_le; lia).
Qed.

Lemma due_lt_spec (x y : Task) :
  key_lt (opt_key nat_key (k_due_at x)) (opt_key nat_key (k_due_at y)) = true
  <-> due_before (due_code x) (due_code y).
Proof.
  unfold key_lt, due_before, due_code, opt_key, nat_key, Pg.key_leb.
  destruct (k_due_at x) as [a|]; destruct (k_due_at y) as [b|]; cbn [negb].
  - rewrite negb_true_iff, Z.leb_gt. lia.
  - split; [lia|reflexivity].
  - split; [discriminate|lia].
  - split; [discriminate|lia].
Qed.

Lemma order_spec (x y : Task) : TaskModel.order x y = true <-> task_before x y.
Proof.
  unfold TaskModel.order, task_before. rewrite !rank_lt_spec.
  pose proof (due_lt_spec x y) as Hxy. pose proof (due_lt_spec y x) as Hyx.
  destruct (Z.ltb_spec (rank_code x) (rank_code y)) as [H1|H1]; [split; [left; exact H1|reflexivity]|].
  destruct (Z.ltb_spec (rank_code y) (rank_code x)) as [H2|H2];
    [split; [discriminate|intros [H|[H _]]; lia]|].
  destruct (key_lt (opt_key nat_key (k_due_at x)) (opt_key nat_key (k_due_at y))).
  - split; [|reflexivity]. intros _. right. split; [lia|]. left. apply Hxy. reflexivity.
  - destruct (key_lt (opt_key nat_key (k_due_at y)) (opt_key nat_key (k_due_at x))).
    + split; [discriminate|]. intros [H|[_ [H|(_ & H & _)]]]; [lia| |].
      * apply Hxy in H. discriminate.
      * exfalso. apply H. apply Hyx. reflexivity.
    + rewrite Nat.leb_le. split.
      * intros H. right. split; [lia|]. right.
        split; [intros C; apply Hxy in C; discriminate|].
        split; [intros C; apply Hyx in C; discriminate|exact H].
      * intros [H|[_ [H|(_ & _ & H)]]]; [lia| |exact H].
        apply Hxy in H. discriminate.
Qed.

(** The task list is ordered by the rank of the priority, then by due
    date with undated tasks last, then newest first: on every page each
    row may stand before every later row, and in particular no task
    stands before an urgent one unless it is urgent itself. *)
Theorem task_list_is_ordered_by_priority :
  forall (tenantId : uuid) (filters : TaskFilters) (s : Store)
         (rows : list TaskRow) (total : Z),
    TaskModel.getTasksWithFilters tenantId filters s = Returned (rows, total) ->
    StronglySorted (fun a b => task_before (tr_task a) (tr_task b)) rows
    /\ StronglySorted (fun a b => k_priority (tr_task b) = "urgent" ->
                                  k_priority (tr_task a) = "urgent") rows.
Proof.
  intros tenantId filters s rows total. unfold TaskModel.getTasksWithFilters.
  destruct (Pg.limit_offset _ _) as [[lim off]|]; [|discriminate].
  intros H. inversion H; subst; clear H. rewrite strip_window.
  assert (Hs : StronglySorted (fun a b => TaskModel.order a b = true)
                 (firstn lim (skipn off (Pg.sort_by TaskModel.order
                                           (filter (TaskModel.where_ tenantId filters)
                                                   (tasks s)))))).
  { apply sorted_firstn, sorted_skipn, sort_by_sorted.
    - intros x y. rewrite !order_spec. unfold task_before, due_before. lia.
    - intros x y z. rewrite !order_spec. unfold task_before, due_before. lia. }
  split.
  - eapply sorted_map; [|exact Hs]. cbv beta. intros a b Hab.
    cbn [TaskModel.task_row tr_task]. apply order_spec. exact Hab.
  - eapply sorted_map; [|exact Hs]. cbv beta. intros a b Hab.
    cbn [TaskModel.task_row tr_task]. apply order_spec in Hab.
    intros Hb. apply rank_code_spec. apply rank_code_spec in Hb.
    pose proof (proj1 (rank_code_spec a)). unfold task_before in Hab. lia.
Qed.

(** The two tasks of tenant [1]: the urgent one comes first. *)
Lemma task_list_is_ordered_by_priority_witness :
  exists rows total,
    TaskModel.getTasksWithFilters 1 (mkTaskFilters None None None None None None None)
                                  leads_store
    = Returned (rows, total)
    /\ map (fun r => k_priority (tr_task r)) rows = ["urgent"; "low"]
    /\ StronglySorted (fun a b => task_before (tr_task a) (tr_task b)) rows.
Proof.
  eexists. eexists. split; [vm_compute; reflexivity|]. split; [reflexivity|].
  apply (task_list_is_ordered_by_priority
           1 (mkTaskFilters None None None None None None None) leads_store _ 2%Z).
  vm_compute. reflexivity.
Defined.

(* ------------------------------------------------------------------ *)
(** * The handlers *)

(** The contact step of the webhook, in a world that rejects nothing:
    it returns, and touches neither the leads nor the activity log nor
    the connection. *)
Lemma webhook_resolve_frame (w : World) (req : WebhookBody) :
  (forall st, rejects w st = false) ->
  exists w' contactId,
    webhookController.resolveContact req w = (w', Returned contactId)
    /\ rejects w' = rejects w
    /\ client_tx w' = client_tx w
    /\ leads (db w') = leads (db w)
    /\ activity_log (db w') = activity_log (db w)
    /\ clock (db w') = clock (db w).
Proof.
  intros Hno. unfold webhookController.resolveContact.
  destruct (w_visitor req) as [v|]; [|exists w, None; repeat split].
  destruct (JS.truthy (v_email v) || JS.truthy (v_phone v)); [|exists w, None; repeat split].
  unfold_m. rewrite Hno.
  destruct (ContactModel.findByEmailOrPhone (w_tenant_id req) (v_email v) (v_phone v) (db w))
    as [existing|].
  - destruct (0 <? webhookController.keys_length (webhookController.updateData v existing))%nat.
    + cbn [rejects]. rewrite Hno. cbn. eexists. eexists. repeat split.
    + eexists. eexists. repeat split.
  - cbn [rejects]. rewrite Hno. cbn. eexists. eexists. repeat split.
Qed.

(** A webhook call for an existing tenant, when the store accepts every
    statement, is answered 200 and stores exactly one lead and one
    activity-log entry: the lead belongs to the tenant of the request,
    is unowned, has status [new], stage [lead], score 0 and source
    [fairex] and carries the exhibition and join ids of the request; the
    response names that lead and its contact; the log entry records
    [created_via_webhook] for that lead; and the transaction is closed. *)
Theorem webhook_success_stores_one_lead_and_one_log :
  forall (w : World) (req : WebhookBody),
    (forall st, rejects w st = false) ->
    In (w_tenant_id req) (tenants (db w)) ->
    let run := webhookController.handleLeadCaptured req w in
    exists lead entry,
      response run
      = Some (sendSuccess 200
                (mkLeadCaptured (l_id lead) (l_contact_id lead) "Lead captured successfully")
                "Webhook processed successfully")
      /\ leads (after run) = (leads (db w) ++ [lead])%list
      /\ l_tenant_id lead = w_tenant_id req
      /\ l_owner_user_id lead = None
      /\ l_status lead = "new" /\ l_stage lead = "lead"
      /\ l_score lead = 0%Z /\ l_source lead = "fairex"
      /\ l_exhibition_id lead = w_exhibition_id req
      /\ l_join_id lead = w_join_id req
      /\ activity_log (after run) = (activity_log (db w) ++ [entry])%list
      /\ a_tenant_id entry = w_tenant_id req
      /\ a_entity entry = "lead"
      /\ a_entity_id entry = l_id lead
      /\ a_action entry = "created_via_webhook"
      /\ client_tx (fst run) = None.
Proof.
  intros w req Hno Hten run. subst run.
  unfold webhookController.handleLeadCaptured, response, after. unfold_m.
  repeat (first [ rewrite Hno | rewrite (valid_tenant_has_rows _ _ Hten)
                | progress cbn [db rejects client_tx fst snd] ]).
  destruct (webhook_resolve_frame (mkWorld (db w) (Some []) (rejects w)) req Hno)
    as (w' & contactId & Hres & Hrej & Htx & Hleads & Hlog & Hclock).
  rewrite Hres. cbn [rejects client_tx db] in Hrej, Htx, Hleads, Hlog, Hclock.
  rewrite Hrej, Hno.
  cbn [LeadModel.create db rejects client_tx fst snd]. rewrite Hno, Htx.
  cbn [db rejects client_tx fst snd bump_id with_leads with_activity_log dflt
       leads activity_log next_id clock].
  rewrite Hleads, Hlog.
  exists (snd (LeadModel.create (w_tenant_id req) (webhookController.leadData req contactId)
                                (db w'))).
  eexists. repeat split.
Qed.

(** The webhook scenario on a store without rows. *)
Lemma webhook_success_stores_one_lead_and_one_log_witness :
  map l_source
      (leads (after (webhookController.handleLeadCaptured scenario_request (quiet empty_store))))
  = ["fairex"]
  /\ exists lead entry,
      leads (after (webhookController.handleLeadCaptured scenario_request (quiet empty_store)))
      = (leads (db (quiet empty_store)) ++ [lead])%list
      /\ activity_log
           (after (webhookController.handleLeadCaptured scenario_request (quiet empty_store)))
         = (activity_log (db (quiet empty_store)) ++ [entry])%list.
Proof.
  split; [vm_compute; reflexivity|].
  destruct (webhook_success_stores_one_lead_and_one_log
              (quiet empty_store) scenario_request (fun _ => eq_refl)
              (or_introl eq_refl))
    as (lead & entry & _ & H2 & _ & _ & _ & _ & _ & _ & _ & _ & H11 & _).
  exists lead, entry. split; [exact H2 | exact H11].
Defined.

Lemma unknown_tenant_has_no_rows (t : uuid) (l : list uuid) :
  ~ In t l -> (List.length (filter (fun x => (x =? t)%nat) l) =? 0)%nat = true.
Proof.
  intros Hn. induction l as [|x l IH]; [reflexivity|].
  cbn [filter]. destruct (Nat.eqb_spec x t) as [E|E].
  - exfalso. apply Hn. left. exact E.
  - apply IH. intros H. apply Hn. right. exact H.
Qed.

(** A webhook call that names a tenant the store does not hold is
    answered 422 before anything is written: the store is as it was.
    The handler returns from inside the transaction it began, so the
    borrowed connection is released with that transaction still open. *)
Theorem webhook_unknown_tenant_writes_nothing :
  forall (w : World) (req : WebhookBody),
    rejects w SelectTenant = false ->
    ~ In (w_tenant_id req) (tenants (db w)) ->
    let run := webhookController.handleLeadCaptured req w in
    response run = Some (sendError 422 "Invalid tenant ID")
    /\ after run = db w
    /\ client_tx (fst run) = Some [].
Proof.
  intros w req Hs Hten run. subst run.
  unfold webhookController.handleLeadCaptured, response, after. unfold_m.
  cbn [db rejects client_tx fst snd]. rewrite Hs.
  rewrite (unknown_tenant_has_no_rows _ _ Hten). cbn. repeat split.
Qed.

(** The scenario request, sent for tenant [9]. *)
Lemma webhook_unknown_tenant_writes_nothing_witness :
  response (webhookController.handleLeadCaptured
              (mkWebhookBody 9 None None None None None) (quiet empty_store))
  = Some (sendError 422 "Invalid tenant ID").
Proof.
  refine (proj1 (webhook_unknown_tenant_writes_nothing
                   (quiet empty_store) (mkWebhookBody 9 None None None None None) eq_refl _)).
  simpl. intros [H|[H|[]]]; discriminate.
Defined.

Ltac run_case :=
  first
    [ run_step'
    | match goal with
      | |- context [match ContactModel.findByEmailOrPhone ?a ?b ?c ?d with _ => _ end] =>
          destruct (ContactModel.findByEmailOrPhone a b c d)
      | |- context [if negb (UserModel.validateUser ?a ?b ?c) then _ else _] =>
          let E := fresh "E" in destruct (UserModel.validateUser a b c) eqn:E
      end ].

(** [POST /leads] writes in the caller's tenant only, whatever the body
    holds and whatever statement the store rejects: a lead it adds
    belongs to the caller's tenant and is owned by the caller, also when
    the body names another owner; a contact it adds belongs to the
    caller's tenant; and no stored lead or contact is changed or
    dropped. *)
Theorem create_lead_writes_in_the_callers_tenant :
  forall (w : World) (user : AuthUser) (body : CreateLeadBody),
    let run := leadsController.createLead user body w in
    (exists added,
        leads (after run) = (leads (db w) ++ added)%list
        /\ Forall (fun l => l_tenant_id l = au_tenant_id user
                            /\ l_owner_user_id l = Some (au_id user)) added
        /\ List.length added <= 1)
    /\ (exists added,
           contacts (after run) = (contacts (db w) ++ added)%list
           /\ Forall (fun c => c_tenant_id c = au_tenant_id user) added
           /\ List.length added <= 1).
Proof.
  intros w user body run. subst run.
  unfold leadsController.createLead, leadsController.resolveContact, after.
  destruct (b_contact body) as [contact|];
    [destruct (JS.truthy (cd_email contact) || JS.truthy (cd_phone contact))|];
    unfold_m;
    repeat (first [ progress cbn [fst snd db rejects client_tx bump_id with_leads
                                      with_contacts with_activity_log dflt
                                      LeadModel.create ContactModel.create
                                      leads contacts activity_log]
                  | run_case ]);
    (split;
     [ first [ exists []; split; [symmetry; apply app_nil_r|]; split; [constructor|];
               cbn; lia
             | eexists [_]; split; [reflexivity|]; split;
               [constructor; [split; reflexivity|constructor]|cbn; lia] ]
     | first [ exists []; split; [symmetry; apply app_nil_r|]; split; [constructor|];
               cbn; lia
             | eexists [_]; split; [reflexivity|]; split;
               [constructor; [reflexivity|constructor]|cbn; lia] ] ]).
Qed.

(** [POST /tasks] with an [assigned_to] that is not an active user of
    the caller's tenant stores no task and is answered 422, whatever
    statement the store rejects. *)
Theorem create_task_refuses_a_foreign_assignee :
  forall (w : World) (user : AuthUser) (taskData : TaskData) (assignee : uuid),
    td_assigned_to taskData = Some assignee ->
    UserModel.validateUser assignee (au_tenant_id user) (db w) = false ->
    let run := tasksController.createTask user taskData w in
    option_map status (response run) = Some 422
    /\ after run = db w.
Proof.
  intros w user taskData assignee Ha Hv run. subst run.
  unfold tasksController.createTask, response, after. rewrite Ha. unfold_m.
  cbn [fst snd db rejects client_tx].
  destruct (rejects w SetTenant); cbn [fst snd db rejects client_tx];
    [split; reflexivity|].
  destruct (rejects w SelectUser); cbn [fst snd db rejects client_tx];
    [split; reflexivity|].
  rewrite Hv. cbn. split; reflexivity.
Qed.

(** A user of tenant [1] assigns a task to user [5] when the store holds
    no user. *)
Lemma create_task_refuses_a_foreign_assignee_witness :
  after (tasksController.createTask
           agent_one (mkTaskData None None (Some 5) "call" None None) (quiet empty_store))
  = empty_store.
Proof.
  refine (proj2 (create_task_refuses_a_foreign_assignee
                   (quiet empty_store) agent_one
                   (mkTaskData None None (Some 5) "call" None None) 5 eq_refl eq_refl)).
Defined.

(** ** Emails stay unique within a tenant *)

Lemma In_tenant_emails (t : uuid) (e : string) (cs : list Contact) :
  In e (tenant_emails t cs) <-> exists c, In c cs /\ c_tenant_id c = t /\ c_email c = Some e.
Proof.
  unfold tenant_emails. rewrite in_flat_map. split.
  - intros (c & Hc & He). exists c. split; [exact Hc|].
    destruct (Nat.eqb_spec (c_tenant_id c) t) as [E|E]; [|destruct He].
    destruct (c_email c) as [e'|]; [|destruct He]. destruct He as [He|[]]. subst. auto.
  - intros (c & Hc & Ht & He). exists c. split; [exact Hc|].
    rewrite Ht, Nat.eqb_refl, He. left. reflexivity.
Qed.

Lemma tenant_emails_map (t : uuid) (g : Contact -> Contact) (cs : list Contact) :
  (forall c, c_tenant_id (g c) = c_tenant_id c /\ c_email (g c) = c_email c) ->
  tenant_emails t (map g cs) = tenant_emails t cs.
Proof.
  intros Hg. unfold tenant_emails. induction cs as [|c cs IH]; [reflexivity|].
  cbn [map flat_map]. destruct (Hg c) as [H1 H2]. rewrite H1, H2, IH. reflexivity.
Qed.

(** A contact stored after the search by email or phone found nothing,
    or for a reference without an email, adds no duplicate email. *)
Lemma created_email_is_new (t t' : uuid) (data : ContactData) (s : Store) :
  JS.truthy (cd_email data) = false
  \/ ContactModel.findByEmailOrPhone t (cd_email data) (cd_phone data) s = None ->
  NoDup (tenant_emails t' (contacts s)) ->
  NoDup (tenant_emails t' (contacts (fst (ContactModel.create t data s)))).
Proof.
  intros Hnew Hnd. unfold ContactModel.create.
  cbn [fst bump_id with_contacts contacts].
  unfold tenant_emails. rewrite flat_map_app. fold (tenant_emails t' (contacts s)).
  cbn [flat_map c_tenant_id c_email]. rewrite app_nil_r.
  destruct (Nat.eqb_spec t t') as [E|E]; [subst t'|rewrite app_nil_r; exact Hnd].
  unfold JS.or_null. destruct (JS.truthy (cd_email data)) eqn:Ht;
    [|rewrite app_nil_r; exact Hnd].
  destruct (cd_email data) as [e|] eqn:He; [|rewrite app_nil_r; exact Hnd].
  destruct Hnew as [Hnew|Hnew]; [discriminate|].
  apply NoDup_appended; [exact Hnd|]. intros Hin.
  apply In_tenant_emails in Hin. destruct Hin as (c & Hc & Htc & Hec).
  unfold ContactModel.findByEmailOrPhone in Hnew.
  pose proof (find_none _ _ Hnew c Hc) as Hm. unfold ContactModel.matches in Hm.
  rewrite Htc, Nat.eqb_refl, Hec in Hm. unfold JS.or_null in Hm. rewrite Ht in Hm.
  cbn [sql_eq_str andb] in Hm. rewrite String.eqb_refl in Hm. discriminate.
Qed.

Lemma contact_update_keeps_emails (t : uuid) (contactId tenantId : uuid) (data : ContactData)
      (s : Store) :
  cd_email data = None ->
  tenant_emails t (contacts (fst (ContactModel.update contactId tenantId data s)))
  = tenant_emails t (contacts s).
Proof.
  intros He. unfold ContactModel.update. cbn [fst with_contacts contacts].
  apply tenant_emails_map. intros c.
  destruct (ContactModel.targets contactId tenantId c); [|split; reflexivity].
  unfold ContactModel.apply_update. cbn [c_tenant_id c_email]. rewrite He. split; reflexivity.
Qed.

Lemma webhook_resolve_keeps_emails_unique (w : World) (req : WebhookBody) (t : uuid) :
  NoDup (tenant_emails t (contacts (db w))) ->
  NoDup (tenant_emails t (contacts (db (fst (webhookController.resolveContact req w))))).
Proof.
  intros Hnd. unfold webhookController.resolveContact.
  destruct (w_visitor req) as [v|]; [|exact Hnd].
  destruct (JS.truthy (v_email v) || JS.truthy (v_phone v)); [|exact Hnd].
  unfold_m. destruct (rejects w SelectContact); [exact Hnd|].
  destruct (ContactModel.findByEmailOrPhone (w_tenant_id req) (v_email v) (v_phone v) (db w))
    as [existing|] eqn:Hf.
  - destruct (0 <? webhookController.keys_length (webhookController.updateData v existing))%nat;
      [|exact Hnd].
    cbn [rejects db client_tx]. destruct (rejects w UpdateContact); [exact Hnd|].
    pose proof (contact_update_keeps_emails
                  t (c_id existing) (w_tenant_id req)
                  (webhookController.updateData v existing) (db w) eq_refl) as Hu.
    destruct (ContactModel.update (c_id existing) (w_tenant_id req)
                                  (webhookController.updateData v existing) (db w))
      as [s' a]. cbn [fst snd db] in *. rewrite Hu. exact Hnd.
  - cbn [rejects db client_tx]. destruct (rejects w InsertContact); [exact Hnd|].
    pose proof (created_email_is_new
                  (w_tenant_id req) t
                  (mkContactData (v_first_name v) (v_last_name v) (v_email v) (v_phone v)
                                 (v_dob v) None (v_kf_visitor_id v) (Some "fairex"))
                  (db w) (or_intror Hf) Hnd) as Hc.
    destruct (ContactModel.create _ _ (db w)) as [s' a]. exact Hc.
Qed.

Lemma lead_resolve_keeps_emails_unique (w : World) (user : AuthUser) (body : CreateLeadBody)
      (t : uuid) :
  NoDup (tenant_emails t (contacts (db w))) ->
  NoDup (tenant_emails t (contacts (db (fst (leadsController.resolveContact user body w))))).
Proof.
  intros Hnd. unfold leadsController.resolveContact.
  destruct (b_contact body) as [contact|]; [|exact Hnd].
  destruct (JS.truthy (cd_email contact) || JS.truthy (cd_phone contact)); [|exact Hnd].
  unfold_m. destruct (rejects w SelectContact); [exact Hnd|].
  destruct (ContactModel.findByEmailOrPhone (au_tenant_id user) (cd_email contact)
                                            (cd_phone contact) (db w))
    as [existing|] eqn:Hf; [exact Hnd|].
  cbn [rejects db client_tx]. destruct (rejects w InsertContact); [exact Hnd|].
  pose proof (created_email_is_new
                (au_tenant_id user) t
                (mkContactData (cd_first_name contact) (cd_last_name contact)
                               (cd_email contact) (cd_phone contact) (cd_dob contact)
                               (cd_company_id contact) (cd_kf_visitor_id contact)
                               (Some (JS.or_default (ld_source (b_leadData body)) "manual")))
                (db w) (or_intror Hf) Hnd) as Hc.
  destruct (ContactModel.create _ _ (db w)) as [s' a]. exact Hc.
Qed.

(** No ingestion path stores an email twice in a tenant: when the
    emails of a tenant's contacts are pairwise distinct, they still are
    after a webhook call, after [POST /leads] and after [POST /contacts],
    whatever the request holds and whatever statement the store
    rejects. *)
Theorem ingestion_keeps_emails_unique_in_a_tenant :
  forall (w : World) (t : uuid),
    NoDup (tenant_emails t (contacts (db w))) ->
    (forall req,
        NoDup (tenant_emails
                 t (contacts (after (webhookController.handleLeadCaptured req w)))))
    /\ (forall user body,
           NoDup (tenant_emails
                    t (contacts (after (leadsController.createLead user body w)))))
    /\ (forall user contactData,
           NoDup (tenant_emails
                    t (contacts (after (contactsController.createContact user contactData w))))).
Proof.
  intros w t Hnd. split; [|split].
  - intros req. unfold webhookController.handleLeadCaptured, after. unfold_m.
    repeat (first [ progress cbn [fst snd db rejects client_tx] | run_step' ]);
      try exact Hnd.
    all: match goal with
         | |- context [webhookController.resolveContact ?r ?W] =>
             pose proof (webhook_resolve_keeps_emails_unique W r t Hnd) as Hr;
             destruct (webhookController.resolveContact r W) as [w' [contactId|e]]
         end;
      cbn [fst] in Hr;
      repeat (first [ progress cbn [fst snd db rejects client_tx bump_id with_leads
                                        with_activity_log dflt LeadModel.create
                                        leads contacts activity_log]
                    | run_step' ]);
      first [ exact Hnd | exact Hr ].
  - intros user body. unfold leadsController.createLead, after. unfold_m.
    repeat (first [ progress cbn [fst snd db rejects client_tx] | run_step' ]);
      try exact Hnd.
    all: match goal with
         | |- context [leadsController.resolveContact ?u ?b ?W] =>
             pose proof (lead_resolve_keeps_emails_unique W u b t Hnd) as Hr;
             destruct (leadsController.resolveContact u b W) as [w' [contactId|e]]
         end;
      cbn [fst] in Hr;
      repeat (first [ progress cbn [fst snd db rejects client_tx bump_id with_leads
                                        with_activity_log dflt LeadModel.create
                                        leads contacts activity_log]
                    | run_step' ]);
      first [ exact Hnd | exact Hr ].
  - intros user contactData. unfold contactsController.createContact, after. unfold_m.
    destruct (cd_company_id contactData) as [company_id|];
      repeat (first [ progress cbn [fst snd db rejects client_tx negb present]
                    | run_step'
                    | match goal with
                      | |- context [present (CompanyModel.findById ?a ?b ?c)] =>
                          destruct (CompanyModel.findById a b c)
                      end ]);
      try exact Hnd.
    all: try (destruct (ContactModel.findByEmailOrPhone _ _ _ (db w)) eqn:Hf;
              repeat (first [ progress cbn [fst snd db rejects client_tx negb]
                            | run_step' ]);
              try exact Hnd).
    all: match goal with
         | |- context [ContactModel.create ?a ?b (db ?w0)] =>
             assert (Hc : NoDup (tenant_emails
                                   t (contacts (fst (ContactModel.create a b (db w0))))))
               by (apply created_email_is_new; [|exact Hnd]; cbn [cd_email cd_phone];
                   first [ right; assumption
                         | left;
                           match goal with
                           | E : JS.truthy _ || JS.truthy _ = false |- _ =>
                               apply orb_false_iff in E; destruct E; assumption
                           end ]);
             destruct (ContactModel.create a b (db w0)) as [s' row]
         end;
      cbn [fst snd db rejects client_tx] in *;
      repeat (first [ progress cbn [fst snd db rejects client_tx] | run_step' ]);
      assumption.
Qed.

(** The webhook scenario on the store with one contact. *)
Lemma ingestion_keeps_emails_unique_in_a_tenant_witness :
  NoDup (tenant_emails
           1 (contacts (after (webhookController.handleLeadCaptured
                                 scenario_request (quiet office_line_store)))))
  /\ tenant_emails
       1 (contacts (after (webhookController.handleLeadCaptured
                             scenario_request (quiet office_line_store))))
     = ["b@x.com"; "j@x.com"].
Proof.
  split; [|vm_compute; reflexivity].
  refine (proj1 (ingestion_keeps_emails_unique_in_a_tenant (quiet office_line_store) 1 _)
                scenario_request).
  simpl. constructor; [intros []|constructor].
Defined.

(* ------------------------------------------------------------------ *)
(** * Query text *)

Lemma count_char_app (a : ascii) (s t : string) :
  count_char a (s ++ t) = count_char a s + count_char a t.
Proof.
  induction s as [|b s IH]; cbn [append count_char]; [reflexivity|].
  rewrite IH. lia.
Qed.

Lemma sort_chars_hold_no_dollar (s : string) :
  count_char "$" (JS.strip_sort_chars s) = 0.
Proof.
  pose proof (strip_sort_chars_only_sort_chars s) as H.
  induction (JS.strip_sort_chars s) as [|b t IH]; [reflexivity|].
  cbn [JS.forall_string] in H. apply andb_true_iff in H. destruct H as [Hb Ht].
  cbn [count_char]. rewrite (IH Ht).
  destruct (Ascii.eqb_spec "$"%char b) as [E|E]; [|reflexivity].
  subst b. vm_compute in Hb. discriminate.
Qed.

(** [TagModel.findAll] with a search text hands the store two
    parameters and a statement with one placeholder: the search
    condition reads [t.name ILIKE 2], the index without its dollar
    sign, whatever the sort options are.  Without a search text the
    statement has one placeholder for its one parameter. *)
Theorem tag_search_condition_has_no_placeholder :
  forall (tenantId : uuid) (search sort_by sort_order : option string),
    let q := TagModel.findAll_query tenantId search sort_by sort_order in
    count_char "$" (query_text q) = 1
    /\ List.length (q_params q) = (if JS.truthy search then 2 else 1)
    /\ (JS.truthy search = true ->
        q_head q
        = "SELECT t.*, COUNT(lt.lead_id) as lead_count FROM tags t "
            ++ "LEFT JOIN lead_tags lt ON t.id = lt.tag_id WHERE t.tenant_id = $1"
            ++ " AND t.name ILIKE 2 GROUP BY t.id").
Proof.
  intros tenantId search sort_by sort_order q. subst q.
  unfold TagModel.findAll_query, query_text.
  cbn [q_head q_order_by q_tail q_params].
  rewrite !count_char_app.
  assert (Hsort : count_char "$"
                    (if JS.truthy sort_by
                     then " ORDER BY " ++ JS.strip_sort_chars (dflt sort_by "") ++ " "
                            ++ match option_map JS.toUpperCase sort_order with
                               | Some o => if o =? "DESC" then "DESC" else "ASC"
                               | None => "ASC"
                               end
                     else " ORDER BY lead_count DESC, t.name ASC") = 0).
  { destruct (JS.truthy sort_by); [|reflexivity].
    rewrite !count_char_app, sort_chars_hold_no_dollar.
    destruct (option_map JS.toUpperCase sort_order) as [o|]; [|reflexivity].
    destruct (o =? "DESC"); reflexivity. }
  rewrite Hsort.
  destruct (JS.truthy search); split; try split; try reflexivity; discriminate.
Qed.

Lemma push_cond_index (lhs : string) (v : option value) (b : Builder) :
  b_paramIndex b = S (List.length (b_params b)) ->
  b_paramIndex (push_cond lhs v b) = S (List.length (b_params (push_cond lhs v b))).
Proof.
  intros H. destruct v as [x|]; [|exact H].
  cbn [push_cond b_paramIndex b_params]. rewrite length_app, H. cbn [List.length]. lia.
Qed.

Lemma nth_error_last_two {A : Type} (l : list A) (x y : A) :
  nth_error (l ++ [x; y]) (List.length (l ++ [x; y]) - 2) = Some x
  /\ nth_error (l ++ [x; y]) (List.length (l ++ [x; y]) - 1) = Some y.
Proof.
  rewrite length_app. cbn [List.length].
  replace (List.length l + 2 - 2) with (List.length l + 0) by lia.
  replace (List.length l + 2 - 1) with (List.length l + 1) by lia.
  rewrite !nth_error_app2 by lia.
  replace (List.length l + 0 - List.length l) with 0 by lia.
  replace (List.length l + 1 - List.length l) with 1 by lia.
  split; reflexivity.
Qed.

(** Whichever filters a list request carries, the lead and contact
    builders number their placeholders so that [LIMIT] and [OFFSET] name
    the last two parameters, and those are the limit and the offset. *)
Theorem limit_and_offset_bind_the_last_two_parameters :
  forall (tenantId : uuid),
    (forall filters,
        let q := LeadModel.getLeadsWithFilters_query tenantId filters in
        let n := List.length (q_params q) in
        let limit := dflt (f_limit filters) 20%Z in
        q_tail q = " LIMIT $" ++ JS.show_nat (n - 1) ++ " OFFSET $" ++ JS.show_nat n
        /\ nth_error (q_params q) (n - 2) = Some (VNum limit)
        /\ nth_error (q_params q) (n - 1)
           = Some (VNum ((dflt (f_page filters) 1 - 1) * limit)%Z))
    /\ (forall limit offset filters,
           let q := ContactModel.findAll_query tenantId limit offset filters in
           let n := List.length (q_params q) in
           q_tail q = " LIMIT $" ++ JS.show_nat (n - 1) ++ " OFFSET $" ++ JS.show_nat n
           /\ nth_error (q_params q) (n - 2) = Some (VNum limit)
           /\ nth_error (q_params q) (n - 1) = Some (VNum offset)).
Proof.
  intros tenantId. split.
  - intros filters q n limit. subst q n limit.
    unfold LeadModel.getLeadsWithFilters_query. cbn [q_tail q_params].
    assert (Hb : b_paramIndex (LeadModel.whereBuilder tenantId filters)
                 = S (List.length (b_params (LeadModel.whereBuilder tenantId filters)))).
    { unfold LeadModel.whereBuilder.
      match goal with
      | |- context [if JS.truthy ?x then _ else ?b4] =>
          assert (H4 : b_paramIndex b4 = S (List.length (b_params b4)))
            by (repeat apply push_cond_index; reflexivity);
          destruct (JS.truthy x); [|exact H4];
          cbn [b_paramIndex b_params]; rewrite length_app, H4; cbn [List.length]; lia
      end. }
    destruct (nth_error_last_two (b_params (LeadModel.whereBuilder tenantId filters))
                                 (VNum (dflt (f_limit filters) 20%Z))
                                 (VNum ((dflt (f_page filters) 1 - 1)
                                        * dflt (f_limit filters) 20)%Z)) as [H1 H2].
    split; [|split; assumption].
    rewrite Hb, length_app. cbn [List.length].
    replace (List.length (b_params (LeadModel.whereBuilder tenantId filters)) + 2 - 1)
      with (S (List.length (b_params (LeadModel.whereBuilder tenantId filters)))) by lia.
    replace (S (List.length (b_params (LeadModel.whereBuilder tenantId filters))) + 1)
      with (List.length (b_params (LeadModel.whereBuilder tenantId filters)) + 2) by lia.
    reflexivity.
  - intros limit offset filters q n. subst q n.
    unfold ContactModel.findAll_query. cbn [q_tail q_params].
    match goal with
    | |- context [b_params (if JS.truthy ?x then ?b3 else ?b2)] =>
        set (b := if JS.truthy x then b3 else b2);
        assert (Hb : b_paramIndex b = S (List.length (b_params b)))
    end.
    { subst b.
      match goal with
      | |- context [if JS.truthy ?x then _ else ?b2] =>
          assert (H2 : b_paramIndex b2 = S (List.length (b_params b2)))
            by (repeat apply push_cond_index; reflexivity);
          destruct (JS.truthy x); [|exact H2];
          cbn [b_paramIndex b_params]; rewrite length_app, H2; cbn [List.length]; lia
      end. }
    destruct (nth_error_last_two (b_params b) (VNum limit) (VNum offset)) as [H1 H2].
    split; [|split; assumption].
    rewrite Hb, length_app. cbn [List.length].
    replace (List.length (b_params b) + 2 - 1) with (S (List.length (b_params b))) by lia.
    replace (S (List.length (b_params b)) + 1) with (List.length (b_params b) + 2) by lia.
    reflexivity.
Qed.

(* ------------------------------------------------------------------ *)
(** * Pipelines and stages *)




Lemma fold_max_seq (a k : nat) :
  fold_left Z.max (map Z.of_nat (seq (S a) k)) (Z.of_nat a) = Z.of_nat (a + k).
Proof.
  revert a. induction k as [|k IH]; intros a; cbn [seq map fold_left].
  - f_equal. lia.
  - replace (Z.max (Z.of_nat a) (Z.of_nat (S a))) with (Z.of_nat (S a)) by lia.
    rewrite IH. f_equal. lia.
Qed.

Lemma sql_max_seq (m : nat) :
  dflt (sql_max (map Z.of_nat (seq 1 m))) 0%Z = Z.of_nat m.
Proof.
  destruct m as [|m]; [reflexivity|].
  cbn [seq map sql_max dflt]. rewrite (fold_max_seq 1 m). f_equal.
Qed.

(** The stages of one pipeline, as name and position, in storage order. *)
Lemma createStages_numbers (pipelineId tenantId : uuid) (names : list string) :
  forall (s : PipelineStore) (m : nat),
    map ps_position (filter (fun g => (ps_pipeline_id g =? pipelineId)%nat) (pipeline_stages s))
    = map Z.of_nat (seq 1 m) ->
    let s' := createStages pipelineId tenantId names s in
    map (fun g => (ps_name g, ps_position g))
        (filter (fun g => (ps_pipeline_id g =? pipelineId)%nat) (pipeline_stages s'))
    = (map (fun g => (ps_name g, ps_position g))
           (filter (fun g => (ps_pipeline_id g =? pipelineId)%nat) (pipeline_stages s))
         ++ combine names (map Z.of_nat (seq (S m) (List.length names))))%list
    /\ pipelines s' = pipelines s.
Proof.
  induction names as [|name names IH]; intros s m Hm s'; subst s'.
  - cbn [createStages fold_left List.length seq map combine]. rewrite app_nil_r.
    split; reflexivity.
  - unfold createStages. cbn [fold_left].
    fold (createStages pipelineId tenantId names
            (fst (PipelineModel.createStage pipelineId (mkNamedData tenantId name) s))).
    set (s1 := fst (PipelineModel.createStage pipelineId (mkNamedData tenantId name) s)).
    assert (Hpos : PipelineModel.next_position pipelineId s = Z.of_nat (S m)).
    { unfold PipelineModel.next_position. rewrite Hm, sql_max_seq. lia. }
    assert (H1 : filter (fun g => (ps_pipeline_id g =? pipelineId)%nat) (pipeline_stages s1)
                 = (filter (fun g => (ps_pipeline_id g =? pipelineId)%nat) (pipeline_stages s)
                      ++ [mkPipelineStage (pl_next_id s) tenantId pipelineId name
                                          (Z.of_nat (S m)) 0])%list).
    { subst s1. unfold PipelineModel.createStage. cbn [fst pipeline_stages].
      rewrite filter_app. cbn [filter ps_pipeline_id nd_tenant_id nd_name].
      rewrite Nat.eqb_refl, Hpos. reflexivity. }
    destruct (IH s1 (S m)) as [IH1 IH2].
    { rewrite H1, map_app, Hm. cbn [map ps_position].
      rewrite seq_S, map_app. reflexivity. }
    split; [|rewrite IH2; reflexivity].
    rewrite IH1, H1, map_app, <- app_assoc.
    cbn [map ps_name ps_position app List.length seq combine]. reflexivity.
Qed.

Lemma insert_by_head {R : Type} (leb : R -> R -> bool) (x : R) (l : list R) :
  Forall (fun y => leb x y = true) l -> Pg.insert_by leb x l = x :: l.
Proof.
  intros H. destruct l as [|y l]; [reflexivity|].
  inversion H; subst. cbn [Pg.insert_by].
  match goal with Hxy : leb x y = true |- _ => rewrite Hxy end. reflexivity.
Qed.

Lemma sort_by_sorted_is_identity {R : Type} (leb : R -> R -> bool) (l : list R) :
  StronglySorted (fun a b => leb a b = true) l -> Pg.sort_by leb l = l.
Proof.
  induction 1 as [|x l Hs IH Hx]; [reflexivity|].
  unfold Pg.sort_by in *. cbn [fold_right]. rewrite IH. apply insert_by_head. exact Hx.
Qed.

Lemma numbered_is_sorted (l : list PipelineStage) :
  forall a, map ps_position l = map Z.of_nat (seq a (List.length l)) ->
            StronglySorted
              (fun x y => Pg.by_key Pg.ASC (fun g => Pg.KNum (ps_position g)) x y = true) l.
Proof.
  induction l as [|g l IH]; intros a H; [constructor|].
  cbn [List.length seq map] in H. inversion H as [[Hg Hl]].
  constructor; [exact (IH (S a) Hl)|].
  apply Forall_forall. intros y Hy. cbn [Pg.by_key Pg.key_leb]. apply Z.leb_le.
  assert (Hin : In (ps_position y) (map Z.of_nat (seq (S a) (List.length l))))
    by (rewrite <- Hl; apply in_map; exact Hy).
  apply in_map_iff in Hin. destruct Hin as (n & Hn & Hseq). apply in_seq in Hseq. lia.
Qed.

(** Stages created one after the other on a pipeline without stages
    are numbered 1, 2, 3, ... in the order of creation, whatever their
    names, and the pipeline reads them back in that order. *)
Theorem stages_are_numbered_in_creation_order :
  forall (p : Pipeline) (tenantId : uuid) (names : list string) (s : PipelineStore),
    Forall (fun g => ps_pipeline_id g <> p_id p) (pipeline_stages s) ->
    map (fun v => (sv_name v, sv_position v))
        (PipelineModel.stages_of p (createStages (p_id p) tenantId names s))
    = combine names (map Z.of_nat (seq 1 (List.length names))).
Proof.
  intros p tenantId names s Hnone.
  assert (Hempty : filter (fun g => (ps_pipeline_id g =? p_id p)%nat) (pipeline_stages s) = []).
  { induction (pipeline_stages s) as [|g l IH]; [reflexivity|].
    inversion Hnone as [|? ? Hg Hl]; subst. cbn [filter].
    destruct (Nat.eqb_spec (ps_pipeline_id g) (p_id p)) as [E|E]; [contradiction|].
    apply IH. exact Hl. }
  destruct (createStages_numbers (p_id p) tenantId names s 0) as [H _].
  { rewrite Hempty. reflexivity. }
  rewrite Hempty in H. cbn [map app] in H.
  unfold PipelineModel.stages_of.
  set (mine := filter (fun g => (ps_pipeline_id g =? p_id p)%nat)
                      (pipeline_stages (createStages (p_id p) tenantId names s))) in *.
  assert (Hlen : List.length mine = List.length names).
  { apply (f_equal (@List.length _)) in H.
    rewrite length_map, length_combine, length_map, length_seq in H. lia. }
  assert (Hpos : map ps_position mine = map Z.of_nat (seq 1 (List.length mine))).
  { assert (Hc : forall (A B : Type) (l : list A) (k : list B),
               List.length l = List.length k -> map snd (combine l k) = k).
    { intros A B l. induction l as [|x l IHl]; intros [|y k] Hk; try discriminate;
        [reflexivity|]. cbn [combine map snd]. f_equal. apply IHl.
      cbn [List.length] in Hk. lia. }
    pose proof (f_equal (map snd) H) as Hs. rewrite map_map in Hs. cbn [snd] in Hs.
    rewrite Hlen. etransitivity; [exact Hs|].
    apply Hc. rewrite length_map, length_seq. reflexivity. }
  rewrite (sort_by_sorted_is_identity _ _ (numbered_is_sorted mine 1 Hpos)).
  rewrite map_map. cbn [sv_name sv_position]. exact H.
Qed.

(** Three stages on the pipeline ["Sales"]. *)
Lemma stages_are_numbered_in_creation_order_witness :
  map (fun v => (sv_name v, sv_position v))
      (PipelineModel.stages_of
         (mkPipeline 80 1 "Sales" false)
         (createStages 80 1 ["Won"; "Lost"; "Won"] sales_pipeline_store))
  = [("Won", 1%Z); ("Lost", 2%Z); ("Won", 3%Z)].
Proof.
  apply (stages_are_numbered_in_creation_order
           (mkPipeline 80 1 "Sales" false) 1 ["Won"; "Lost"; "Won"] sales_pipeline_store).
  constructor.
Defined.

(** [POST /pipelines/:id/stages] adds a stage only to a pipeline of the
    caller's tenant, whatever statement the store rejects: the stage
    table grows by at most one stage, which belongs to the caller's
    tenant and to a pipeline that the caller's tenant owns; for a
    pipeline of another tenant, or none, the answer is 404 and nothing
    is stored. *)
Theorem create_stage_stays_in_the_callers_tenant :
  forall (rejects : PipelineStatement -> bool) (user : AuthUser) (pipelineId : uuid)
         (name : string) (s : PipelineStore),
    let run := pipelineController.createStage rejects user pipelineId name s in
    (fst run = s
     \/ exists stage,
         pipeline_stages (fst run) = (pipeline_stages s ++ [stage])%list
         /\ pipelines (fst run) = pipelines s
         /\ ps_tenant_id stage = au_tenant_id user
         /\ ps_pipeline_id stage = pipelineId
         /\ data (snd run) = Some stage
         /\ status (snd run) = 201
         /\ exists p, In p (pipelines s) /\ p_id p = pipelineId
                      /\ p_tenant_id p = au_tenant_id user)
    /\ (rejects SelectPipeline = false ->
        (forall p, In p (pipelines s) -> p_id p = pipelineId ->
                   p_tenant_id p <> au_tenant_id user) ->
        run = (s, sendError 404 "Pipeline not found")).
Proof.
  intros rejects user pipelineId name s run. subst run.
  unfold pipelineController.createStage, PipelineModel.findById.
  destruct (rejects SelectPipeline); [split; [left; reflexivity|discriminate]|].
  destruct (find _ (pipelines s)) as [p|] eqn:Hf; cbn [option_map].
  - apply find_some in Hf. destruct Hf as [Hin Hp].
    apply andb_true_iff in Hp. destruct Hp as [H1 H2].
    apply Nat.eqb_eq in H1. apply Nat.eqb_eq in H2.
    split; [|intros _ Hforeign; exfalso; exact (Hforeign p Hin H1 H2)].
    destruct (rejects SelectNextPosition || rejects InsertPipelineStage);
      [left; reflexivity|].
    right. unfold PipelineModel.createStage. cbn [fst snd].
    eexists. repeat split. exists p. repeat split; assumption.
  - split; [left; reflexivity|]. intros _ _. reflexivity.
Qed.
